(** * mock-druid.py: the mock Druid HTTP handler

    A shallow embedding of [MockDruidHandler] (its [do_GET], [do_POST] and
    [log_message] methods) together with the Python operations the handler
    calls: [str.split], [str.startswith], negative list indexing,
    [json.dumps], [str.encode], the header lookup of the request and the
    reads and writes on the connection.  The handler's calls to the base
    class are kept as a trace; [sent] gives the bytes they put on the
    connection, with the Date header that [send_response] stamps from the
    clock.

    Python [str] values are modelled as [string]: the request line is
    decoded by [http.server] as ISO-8859-1, so every code point of a path
    or of a header is below 256 and is one [ascii].  Python [bytes] values
    are [list byte]. *)

From Stdlib Require Import ZArith Lia List Bool Ascii String.
From Stdlib Require Import Strings.Byte.
From Stdlib Require Import Decimal DecimalString DecimalPos DecimalZ.
From Stdlib Require DecimalFacts.
Import ListNotations.

Local Open Scope string_scope.
Local Open Scope Z_scope.

(** ** Python values the handler works on *)

Definition bytes := list byte.

Inductive exn : Type :=
| TypeError
| ValueError
| IndexError
| OverflowError.

Inductive result (A : Type) : Type :=
| Ok (a : A)
| Raise (e : exn).
Arguments Ok {A} a.
Arguments Raise {A} e.

(** The double quote character, code point 34. *)
Definition dquote : ascii := "034"%char.
(** The backslash, code point 92. *)
Definition backslash : ascii := "092"%char.

(** Literals below are written with an apostrophe for every double quote;
    [lit] puts the double quotes back. *)
Fixpoint lit (s : string) : string :=
  match s with
  | EmptyString => EmptyString
  | String c s' => String (if Ascii.eqb c "'" then dquote else c) (lit s')
  end.

(** [s.startswith(p)] *)
Fixpoint startswith (s p : string) {struct p} : bool :=
  match p, s with
  | EmptyString, _ => true
  | String _ _, EmptyString => false
  | String a p', String b s' => Ascii.eqb a b && startswith s' p'
  end.

(** [s.split(sep)] for a separator of one character: the pieces between
    the occurrences of [sep], in order; never the empty list. *)
Fixpoint split (sep : ascii) (s : string) : list string :=
  match s with
  | EmptyString => [EmptyString]
  | String c s' =>
      if Ascii.eqb c sep then EmptyString :: split sep s'
      else match split sep s' with
           | [] => [String c EmptyString]
           | t :: ts => String c t :: ts
           end
  end.

(** [xs[i]] with Python's negative indices; out of range raises
    [IndexError]. *)
Definition py_index {A : Type} (xs : list A) (i : Z) : result A :=
  let n := Z.of_nat (List.length xs) in
  let j := if i <? 0 then i + n else i in
  if (j <? 0) || (n <=? j) then Raise IndexError
  else match nth_error xs (Z.to_nat j) with
       | Some x => Ok x
       | None => Raise IndexError
       end.

(** [str(n)] for an [int]. *)
Definition str_int (n : Z) : string := NilZero.string_of_int (Z.to_int n).

(** [s.lower()] on code points below 256: the ASCII capitals and the
    Latin-1 capitals U+00C0..U+00DE (but not the multiplication sign
    U+00D7) move up by 32. *)
Definition lower_char (c : ascii) : ascii :=
  let n := N_of_ascii c in
  if ((65 <=? n) && (n <=? 90))%N then ascii_of_N (n + 32)
  else if ((192 <=? n) && (n <=? 222) && negb (n =? 215))%N
       then ascii_of_N (n + 32)
  else c.

Fixpoint lower (s : string) : string :=
  match s with
  | EmptyString => EmptyString
  | String c s' => String (lower_char c) (lower s')
  end.

(** [s.encode()]: UTF-8 of a text whose code points are below 256. *)
Definition encode_char (c : ascii) : bytes :=
  let n := N_of_ascii c in
  if (n <? 128)%N then [byte_of_ascii c]
  else [byte_of_ascii (ascii_of_N (N.lor 192 (N.shiftr n 6)));
        byte_of_ascii (ascii_of_N (N.lor 128 (N.land n 63)))].

Fixpoint encode (s : string) : bytes :=
  match s with
  | EmptyString => []
  | String c s' => (encode_char c ++ encode s')%list
  end.

(** ** JSON documents and [json.dumps] *)

(** The Python values the handler serialises: [dict] with [str] keys (in
    insertion order), [list], [str], [int], [bool]; [None] for
    completeness. *)
#[local] Unset Elimination Schemes.
Inductive json : Type :=
| JNull
| JBool (b : bool)
| JInt (n : Z)
| JStr (s : string)
| JArr (items : list json)
| JObj (members : list (string * json)).
#[local] Set Elimination Schemes.

Definition hex_digit (n : N) : ascii :=
  if (n <? 10)%N then ascii_of_N (48 + n) else ascii_of_N (87 + n).

(** One character under [ensure_ascii=True]: the short escapes of
    [ESCAPE_DCT], [\u00xx] (lower-case hex) for every other character
    outside [' '..'~'], the character itself otherwise. *)
Definition escape_char (c : ascii) : string :=
  let n := N_of_ascii c in
  if (n =? 34)%N then String backslash (String dquote EmptyString)
  else if (n =? 92)%N then String backslash (String backslash EmptyString)
  else if (n =? 10)%N then String backslash "n"
  else if (n =? 13)%N then String backslash "r"
  else if (n =? 9)%N then String backslash "t"
  else if (n =? 12)%N then String backslash "f"
  else if (n =? 8)%N then String backslash "b"
  else if ((n <? 32) || (126 <? n))%N then
    String backslash
      (String "u" (String "0" (String "0"
         (String (hex_digit (N.shiftr n 4))
            (String (hex_digit (N.land n 15)) EmptyString)))))
  else String c EmptyString.

Fixpoint escape (s : string) : string :=
  match s with
  | EmptyString => EmptyString
  | String c s' => escape_char c ++ escape s'
  end.

(** [encode_basestring_ascii]: the escaped text between double quotes. *)
Definition encode_basestring_ascii (s : string) : string :=
  String dquote (escape s ++ String dquote EmptyString).

(** [sep.join(parts)] *)
Fixpoint join (sep : string) (parts : list string) : string :=
  match parts with
  | [] => EmptyString
  | [p] => p
  | p :: ps => p ++ sep ++ join sep ps
  end.

(** [json.dumps(v)] with the default separators [', '] and [': ']. *)
Fixpoint json_dumps (v : json) : string :=
  match v with
  | JNull => "null"
  | JBool true => "true"
  | JBool false => "false"
  | JInt n => str_int n
  | JStr s => encode_basestring_ascii s
  | JArr items => "[" ++ join ", " (map json_dumps items) ++ "]"
  | JObj members =>
      "{" ++ join ", "
               (map (fun kv => encode_basestring_ascii (fst kv) ++ ": "
                               ++ json_dumps (snd kv)) members)
          ++ "}"
  end.

(** ** The handler object and its effects *)

(** What the handler asks the base class to put on the connection, call by
    call.  [SendResponse] stands for the status line together with the
    Server and Date headers that [send_response] adds on its own (their
    bytes, and the clock that the Date header shows, come with [sent]);
    [ErrorPage] is the whole reply that [send_error] builds. *)
Inductive wire : Type :=
| SendResponse (code : Z)
| SendHeader (keyword value : string)
| EndHeaders
| Write (data : bytes)
| ErrorPage (code : Z) (message : string).

(** [self]: the fields of the request the handler reads, the two streams
    of the connection, and the standard output [log_message] prints to. *)
Record MockDruidHandler : Type := mkHandler {
  command : string;
  path : string;
  requestline : string;
  headers : list (string * string);
  rfile : bytes;
  wfile : list wire;
  stdout : list string
}.

(** A method of the handler: it returns or raises, and leaves [self]
    changed. *)
Definition M (A : Type) : Type :=
  MockDruidHandler -> result A * MockDruidHandler.

Definition ret {A : Type} (a : A) : M A := fun h => (Ok a, h).

Definition bind {A B : Type} (m : M A) (k : A -> M B) : M B :=
  fun h => match m h with
           | (Ok a, h') => k a h'
           | (Raise e, h') => (Raise e, h')
           end.

Definition lift {A : Type} (r : result A) : M A := fun h => (r, h).

Notation "x <- m ;; k" := (bind m (fun x => k))
  (at level 61, m at next level, right associativity).
Notation "m ;; k" := (bind m (fun _ => k))
  (at level 61, right associativity).

Definition get_path : M string := fun h => (Ok (path h), h).
Definition get_command : M string := fun h => (Ok (command h), h).
Definition get_requestline : M string := fun h => (Ok (requestline h), h).

(** [self.headers[name]]: the value of the first header whose name equals
    [name] up to case, [None] when there is none. *)
Fixpoint headers_lookup (hs : list (string * string)) (name : string)
  : option string :=
  match hs with
  | [] => None
  | (k, v) :: hs' =>
      if String.eqb (lower k) (lower name) then Some v
      else headers_lookup hs' name
  end.

Definition headers_get (name : string) : M (option string) :=
  fun h => (Ok (headers_lookup (headers h) name), h).

(** [sys.maxsize] on a 64-bit platform: the largest size an index holds. *)
Definition ssize_max : Z := 2 ^ 63 - 1.

(** The exception [read(n)] raises on a stream that holds [stream], if
    any.  The argument is converted to an index first: [OverflowError]
    below [-2^63] and above [2^63 - 1]; then [ValueError] below [-1].
    A stream never holds [2^63] bytes, so the test on its length changes
    nothing where the code can run: it only says that reading bytes that
    are there raises nothing. *)
Definition read_fault (n : Z) (stream : bytes) : option exn :=
  if n <? - ssize_max - 1 then Some OverflowError
  else if (ssize_max <? n) && (Z.of_nat (List.length stream) <? n)
       then Some OverflowError
  else if n <? -1 then Some ValueError
  else None.

(** [self.rfile.read(n)] on a buffered reader whose stream ends after the
    bytes in [rfile]: the exception of [read_fault] if there is one,
    otherwise [n] bytes (fewer at the end of the stream), all of them for
    [-1].  Waiting for a peer that sends less than [n] bytes and keeps the
    connection open, and [MemoryError] for a buffer the machine cannot
    hold, are not part of the model. *)
Definition rfile_read (n : Z) : M bytes :=
  fun h =>
    match read_fault n (rfile h) with
    | Some e => (Raise e, h)
    | None =>
    if n =? -1 then
      (Ok (rfile h),
       mkHandler (command h) (path h) (requestline h) (headers h)
                 [] (wfile h) (stdout h))
    else
      (Ok (firstn (Z.to_nat n) (rfile h)),
       mkHandler (command h) (path h) (requestline h) (headers h)
                 (skipn (Z.to_nat n) (rfile h)) (wfile h) (stdout h))
    end.

Definition emit (w : wire) : M unit :=
  fun h =>
    (Ok tt,
     mkHandler (command h) (path h) (requestline h) (headers h)
               (rfile h) (wfile h ++ [w]) (stdout h)).

Definition print (line : string) : M unit :=
  fun h =>
    (Ok tt,
     mkHandler (command h) (path h) (requestline h) (headers h)
               (rfile h) (wfile h) (stdout h ++ [line])).

(** [format % args] for the directives [%s] and [%d] ([%%] is a percent
    sign); every argument is given as the text it prints as. *)
Fixpoint py_percent (format : string) (args : list string) : result string :=
  match format with
  | EmptyString =>
      match args with
      | [] => Ok EmptyString
      | _ :: _ => Raise TypeError
      end
  | String c rest =>
      if Ascii.eqb c "%" then
        match rest with
        | EmptyString => Raise ValueError
        | String d rest' =>
            if Ascii.eqb d "s" || Ascii.eqb d "d" then
              match args with
              | [] => Raise TypeError
              | a :: args' =>
                  match py_percent rest' args' with
                  | Ok t => Ok (a ++ t)
                  | Raise e => Raise e
                  end
              end
            else if Ascii.eqb d "%" then
              match py_percent rest' args with
              | Ok t => Ok (String "%" t)
              | Raise e => Raise e
              end
            else Raise ValueError
        end
      else
        match py_percent rest args with
        | Ok t => Ok (String c t)
        | Raise e => Raise e
        end
  end.

(** [MockDruidHandler.log_message]:
    [print(f'Mock Druid: {format % args}')]. *)
Definition log_message (format : string) (args : list string) : M unit :=
  text <- lift (py_percent format args) ;;
  print ("Mock Druid: " ++ text).

(** The base class: [log_request] formats the access-log line and hands it
    to [log_message]; [send_response] logs the request and queues the
    status line; [send_header], [end_headers] and [wfile.write] add to the
    reply. *)
Definition log_request (code : Z) : M unit :=
  line <- get_requestline ;;
  log_message (lit "'%s' %s %s") [line; str_int code; "-"].

Definition send_response (code : Z) : M unit :=
  log_request code ;;
  emit (SendResponse code).

Definition send_header (keyword value : string) : M unit :=
  emit (SendHeader keyword value).

Definition end_headers : M unit := emit EndHeaders.

Definition wfile_write (data : bytes) : M unit := emit (Write data).

(** ** MockDruidHandler *)

Definition do_GET : M unit :=
  path <- get_path ;;
  if String.eqb path "/status" then
    send_response 200 ;;
    send_header "Content-type" "application/json" ;;
    end_headers ;;
    let response :=
      JObj [("status", JStr "healthy"); ("version", JStr "28.0.1-mock")] in
    wfile_write (encode (json_dumps response))
  else if String.eqb path "/druid/v2/datasources" then
    send_response 200 ;;
    send_header "Content-type" "application/json" ;;
    end_headers ;;
    let response := JArr [JStr "wikipedia"; JStr "koalas"; JStr "flights"] in
    wfile_write (encode (json_dumps response))
  else if startswith path "/druid/coordinator/v1/datasources/" then
    datasource <- lift (py_index (split "/" path) (-1)) ;;
    if String.eqb datasource "segments" then
      datasource <- lift (py_index (split "/" path) (-2)) ;;
      send_response 200 ;;
      send_header "Content-type" "application/json" ;;
      end_headers ;;
      let response :=
        JArr [JObj [("dataSource", JStr datasource);
                    ("interval",
                     JStr "2023-01-01T00:00:00.000Z/2023-01-02T00:00:00.000Z");
                    ("version", JStr "2023-01-01T00:00:00.000Z");
                    ("partition", JInt 0);
                    ("size", JInt 1000000)]] in
      wfile_write (encode (json_dumps response))
    else
      send_response 200 ;;
      send_header "Content-type" "application/json" ;;
      end_headers ;;
      let response :=
        JObj [("name", JStr datasource);
              ("segments",
               JObj [("intervals",
                      JArr [JStr
                        "2023-01-01T00:00:00.000Z/2023-01-02T00:00:00.000Z"])]);
              ("columns",
               JArr [JObj [("name", JStr "timestamp"); ("type", JStr "LONG")];
                     JObj [("name", JStr "count"); ("type", JStr "LONG")];
                     JObj [("name", JStr "dimension");
                           ("type", JStr "STRING")]]);
              ("queryGranularity", JStr "none");
              ("segmentGranularity", JStr "day");
              ("rollup", JBool false)] in
      wfile_write (encode (json_dumps response))
  else
    send_response 404 ;;
    end_headers.

Section Builtins.

(** Two built-ins of Python are taken as they are: [int] on a [str]
    ([None] where it raises [ValueError]) and [repr] on a [str]. *)
Variable py_int : string -> option Z.
Variable py_repr : string -> string.

(** [int(v)] for the value of a header: [int(None)] raises
    [TypeError]. *)
Definition int (v : option string) : result Z :=
  match v with
  | None => Raise TypeError
  | Some s =>
      match py_int s with
      | Some n => Ok n
      | None => Raise ValueError
      end
  end.

Definition do_POST : M unit :=
  path <- get_path ;;
  if String.eqb path "/druid/v2/sql" then
    value <- headers_get "Content-Length" ;;
    content_length <- lift (int value) ;;
    post_data <- rfile_read content_length ;;
    send_response 200 ;;
    send_header "Content-type" "application/json" ;;
    end_headers ;;
    let response := JArr [JArr [JStr "test"]; JArr [JInt 1]] in
    wfile_write (encode (json_dumps response))
  else
    send_response 404 ;;
    end_headers.

(** The base class again: [send_error] logs the error and the request
    and replies with its own error page; [handle_one_request] calls the
    method named [do_] followed by the command, and answers 501 when the
    handler has none. *)
Definition send_error (code : Z) (message : string) : M unit :=
  log_message "code %d, message %s" [str_int code; message] ;;
  log_request code ;;
  emit (ErrorPage code message).

Definition handle_one_request : M unit :=
  command <- get_command ;;
  if String.eqb command "GET" then do_GET
  else if String.eqb command "POST" then do_POST
  else send_error 501 ("Unsupported method (" ++ py_repr command ++ ")").

End Builtins.

(** ** The server: one handler object per request *)

(** A request as the base class hands it over: the request line, the
    command and the path parsed from it, the headers, and the bytes that
    follow the headers on the connection. *)
Record request : Type := mkRequest {
  req_line : string;
  req_command : string;
  req_path : string;
  req_headers : list (string * string);
  req_body : bytes
}.

(** The reply to one request: how the handler ended and what it put on the
    connection. *)
Definition response : Type := (result unit * list wire)%type.

Definition new_handler (req : request) (out : list string)
  : MockDruidHandler :=
  mkHandler (req_command req) (req_path req) (req_line req)
            (req_headers req) (req_body req) [] out.

(** The server makes a new handler for each request (the protocol version
    is HTTP/1.0: one request per connection); only the standard output
    lives on from one request to the next. *)
Definition serve (py_int : string -> option Z) (py_repr : string -> string)
    (req : request) (out : list string) : response * list string :=
  let (r, h) := handle_one_request py_int py_repr (new_handler req out) in
  ((r, wfile h), stdout h).

(** [serve_forever] over the requests that come in, one after the
    other. *)
Fixpoint serve_all (py_int : string -> option Z) (py_repr : string -> string)
    (reqs : list request) (out : list string) : list response * list string :=
  match reqs with
  | [] => ([], out)
  | req :: reqs' =>
      let (r, out1) := serve py_int py_repr req out in
      let (rs, out2) := serve_all py_int py_repr reqs' out1 in
      (r :: rs, out2)
  end.

(** [run_server]: the banner, then the requests on port 8082. *)
Definition run_server (py_int : string -> option Z)
    (py_repr : string -> string) (reqs : list request)
  : list response * list string :=
  serve_all py_int py_repr reqs ["Mock Druid server running on port 8082..."].

(** ** Reading a reply *)

Fixpoint status (tr : list wire) : option Z :=
  match tr with
  | [] => None
  | SendResponse code :: _ => Some code
  | ErrorPage code _ :: _ => Some code
  | _ :: tr' => status tr'
  end.

Fixpoint sent_headers (tr : list wire) : list (string * string) :=
  match tr with
  | [] => []
  | SendHeader k v :: tr' => (k, v) :: sent_headers tr'
  | _ :: tr' => sent_headers tr'
  end.

Fixpoint body (tr : list wire) : bytes :=
  match tr with
  | [] => []
  | Write data :: tr' => (data ++ body tr')%list
  | _ :: tr' => body tr'
  end.

(** A reference instance of the two built-ins, for running the model:
    decimal digits after an optional minus sign; a text between
    apostrophes. *)
Definition int_decimal (s : string) : option Z :=
  match NilZero.int_of_string s with
  | Some d => Some (Z.of_int d)
  | None => None
  end.

Definition repr_plain (s : string) : string := "'" ++ s ++ "'".

Definition get (p : string) : request :=
  mkRequest ("GET " ++ p ++ " HTTP/1.1") "GET" p [] [].

(** ** Reading a JSON text back

    What a client gets when it parses the body of a reply: a reader for
    JSON texts over the values of [json] (numbers are integers).  The
    handler has no such function; the properties use it to say what a
    body holds. *)

Definition is_ws (c : ascii) : bool :=
  Ascii.eqb c " " || Ascii.eqb c "009" || Ascii.eqb c "010"
  || Ascii.eqb c "013".

Fixpoint skip_ws (s : string) : string :=
  match s with
  | EmptyString => EmptyString
  | String c s' => if is_ws c then skip_ws s' else s
  end.

Definition is_digit (c : ascii) : bool :=
  let n := N_of_ascii c in ((48 <=? n) && (n <=? 57))%N.

Definition hex_value (c : ascii) : option N :=
  let n := N_of_ascii c in
  if ((48 <=? n) && (n <=? 57))%N then Some (n - 48)%N
  else if ((97 <=? n) && (n <=? 102))%N then Some (n - 87)%N
  else if ((65 <=? n) && (n <=? 70))%N then Some (n - 55)%N
  else None.

(** The character a [\uXXXX] escape stands for, when it is below 256. *)
Definition unicode_escape (a b c d : ascii) : option ascii :=
  match hex_value a, hex_value b, hex_value c, hex_value d with
  | Some x, Some y, Some z, Some w =>
      if ((x =? 0) && (y =? 0))%N then Some (ascii_of_N (16 * z + w))
      else None
  | _, _, _, _ => None
  end.

Definition short_escape (e : ascii) : option ascii :=
  if Ascii.eqb e dquote then Some dquote
  else if Ascii.eqb e backslash then Some backslash
  else if Ascii.eqb e "/" then Some "/"%char
  else if Ascii.eqb e "n" then Some "010"%char
  else if Ascii.eqb e "r" then Some "013"%char
  else if Ascii.eqb e "t" then Some "009"%char
  else if Ascii.eqb e "f" then Some "012"%char
  else if Ascii.eqb e "b" then Some "008"%char
  else None.

(** The text of a string literal, read from just after its opening quote
    up to its closing quote, and what follows. *)
Fixpoint read_chars (s : string) : option (string * string) :=
  match s with
  | EmptyString => None
  | String c r =>
      if Ascii.eqb c dquote then Some (EmptyString, r)
      else if Ascii.eqb c backslash then
        match r with
        | EmptyString => None
        | String e r1 =>
            if Ascii.eqb e "u" then
              match r1 with
              | String h1 (String h2 (String h3 (String h4 r2))) =>
                  match unicode_escape h1 h2 h3 h4, read_chars r2 with
                  | Some ch, Some (t, r3) => Some (String ch t, r3)
                  | _, _ => None
                  end
              | _ => None
              end
            else
              match short_escape e, read_chars r1 with
              | Some ch, Some (t, r3) => Some (String ch t, r3)
              | _, _ => None
              end
        end
      else if (N_of_ascii c <? 32)%N then None
      else
        match read_chars r with
        | Some (t, r3) => Some (String c t, r3)
        | None => None
        end
  end.

Fixpoint span_digits (s : string) : string * string :=
  match s with
  | EmptyString => (EmptyString, EmptyString)
  | String c r =>
      if is_digit c then let (ds, rest) := span_digits r in (String c ds, rest)
      else (EmptyString, s)
  end.

(** A text of digits that starts with a zero and goes on: JSON has no
    such number. *)
Definition leading_zero (ds : string) : bool :=
  match ds with
  | String c (String _ _) => Ascii.eqb c "0"
  | _ => false
  end.

(** An integer: an optional minus sign and decimal digits, without a
    leading zero. *)
Definition read_int (s : string) : option (Z * string) :=
  let (negative, s1) :=
    match s with
    | EmptyString => (false, s)
    | String c r => if Ascii.eqb c "-" then (true, r) else (false, s)
    end in
  let (ds, rest) := span_digits s1 in
  if leading_zero ds then None
  else
    match NilZero.uint_of_string ds with
    | Some u =>
        Some (if negative then Z.opp (Z.of_uint u) else Z.of_uint u, rest)
    | None => None
    end.

Fixpoint drop (n : nat) (s : string) : string :=
  match n, s with
  | S n', String _ s' => drop n' s'
  | _, _ => s
  end.

Fixpoint read_value (fuel : nat) (s : string) : option (json * string) :=
  match fuel with
  | O => None
  | S f =>
      match skip_ws s with
      | EmptyString => None
      | String c r =>
          if Ascii.eqb c "-" || is_digit c then
            match read_int (String c r) with
            | Some (n, r1) => Some (JInt n, r1)
            | None => None
            end
          else if Ascii.eqb c "[" then
            match skip_ws r with
            | EmptyString => None
            | String c' r' =>
                if Ascii.eqb c' "]" then Some (JArr [], r')
                else match read_items f r with
                     | Some (vs, r1) => Some (JArr vs, r1)
                     | None => None
                     end
            end
          else if Ascii.eqb c "{" then
            match skip_ws r with
            | EmptyString => None
            | String c' r' =>
                if Ascii.eqb c' "}" then Some (JObj [], r')
                else match read_members f r with
                     | Some (ms, r1) => Some (JObj ms, r1)
                     | None => None
                     end
            end
          else if Ascii.eqb c dquote then
            match read_chars r with
            | Some (t, r1) => Some (JStr t, r1)
            | None => None
            end
          else if startswith (String c r) "true" then
            Some (JBool true, drop 4 (String c r))
          else if startswith (String c r) "false" then
            Some (JBool false, drop 5 (String c r))
          else if startswith (String c r) "null" then
            Some (JNull, drop 4 (String c r))
          else None
      end
  end

with read_items (fuel : nat) (s : string) : option (list json * string) :=
  match fuel with
  | O => None
  | S f =>
      match read_value f s with
      | None => None
      | Some (v, r) =>
          match skip_ws r with
          | EmptyString => None
          | String c r' =>
              if Ascii.eqb c "," then
                match read_items f r' with
                | Some (vs, r1) => Some (v :: vs, r1)
                | None => None
                end
              else if Ascii.eqb c "]" then Some ([v], r')
              else None
          end
      end
  end

with read_members (fuel : nat) (s : string)
  : option (list (string * json) * string) :=
  match fuel with
  | O => None
  | S f =>
      match skip_ws s with
      | EmptyString => None
      | String q r =>
          if Ascii.eqb q dquote then
            match read_chars r with
            | None => None
            | Some (k, r1) =>
                match skip_ws r1 with
                | EmptyString => None
                | String c r2 =>
                    if Ascii.eqb c ":" then
                      match read_value f r2 with
                      | None => None
                      | Some (v, r3) =>
                          match skip_ws r3 with
                          | EmptyString => None
                          | String c' r4 =>
                              if Ascii.eqb c' "," then
                                match read_members f r4 with
                                | Some (ms, r5) => Some ((k, v) :: ms, r5)
                                | None => None
                                end
                              else if Ascii.eqb c' "}" then
                                Some ([(k, v)], r4)
                              else None
                          end
                      end
                    else None
                end
            end
          else None
      end
  end.

Definition is_ascii_byte (b : byte) : bool := (Byte.to_N b <? 128)%N.

(** [json.loads(b)] for a body in ASCII (which is all that [json.dumps]
    produces): the value of the whole text, [None] where the text is not
    one JSON value. *)
Definition json_loads (b : bytes) : option json :=
  if forallb is_ascii_byte b then
    let s := string_of_list_byte b in
    match read_value (S (String.length s)) s with
    | Some (v, rest) =>
        match skip_ws rest with
        | EmptyString => Some v
        | String _ _ => None
        end
    | None => None
    end
  else None.

(** ** Notions the properties are stated with *)

(** The text starts with a decimal digit. *)
Definition digit_head (s : string) : bool :=
  match s with
  | EmptyString => false
  | String c _ => is_digit c
  end.

(** Induction over a document and the documents inside it. *)
Section JsonInduction.
Variable P : json -> Prop.
Hypothesis HNull : P JNull.
Hypothesis HBool : forall b, P (JBool b).
Hypothesis HInt : forall n, P (JInt n).
Hypothesis HStr : forall s, P (JStr s).
Hypothesis HArr : forall items, Forall P items -> P (JArr items).
Hypothesis HObj :
  forall members, Forall (fun kv => P (snd kv)) members -> P (JObj members).

Fixpoint json_ind (v : json) : P v :=
  match v with
  | JNull => HNull
  | JBool b => HBool b
  | JInt n => HInt n
  | JStr s => HStr s
  | JArr items =>
      HArr items
        ((fix go (l : list json) : Forall P l :=
            match l with
            | [] => Forall_nil _
            | x :: l' => Forall_cons x (json_ind x) (go l')
            end) items)
  | JObj members =>
      HObj members
        ((fix go (l : list (string * json))
            : Forall (fun kv => P (snd kv)) l :=
            match l with
            | [] => Forall_nil _
            | kv :: l' =>
                Forall_cons kv
                  (match kv as p return P (snd p) with
                   | (_, x) => json_ind x
                   end) (go l')
            end) members)
  end.
End JsonInduction.

(** [v] is read back from any text that, after leading white space, is
    its serialisation followed by [rest]. *)
Definition reads_back (v : json) : Prop :=
  forall (fuel : nat) (s rest : string),
    skip_ws s = json_dumps v ++ rest ->
    digit_head rest = false ->
    (String.length (json_dumps v) < fuel)%nat ->
    read_value fuel s = Some (v, rest).

(** The text of one member of an object, as [json_dumps] writes it. *)
Definition member_text (kv : string * json) : string :=
  encode_basestring_ascii (fst kv) ++ ": " ++ json_dumps (snd kv).

(** Every code point of the text is below 128. *)
Fixpoint ascii_only (s : string) : bool :=
  match s with
  | EmptyString => true
  | String c s' => (N_of_ascii c <? 128)%N && ascii_only s'
  end.

(** [c in s] *)
Fixpoint contains (c : ascii) (s : string) : bool :=
  match s with
  | EmptyString => false
  | String x s' => Ascii.eqb x c || contains c s'
  end.

(** The final token of a path split on the slash. *)
Definition final_token (p : string) : string :=
  List.last (split "/" p) EmptyString.

(** The datasource name as the specification words it: the token before a
    final [segments] token when there is one, the final token otherwise. *)
Definition datasource_name (p : string) : string :=
  let toks := split "/" p in
  if String.eqb (List.last toks EmptyString) "segments"
  then List.last (List.removelast toks) EmptyString
  else List.last toks EmptyString.

(** ** The documents and replies of the specification *)

Definition coordinator_prefix : string := "/druid/coordinator/v1/datasources/".

Definition status_doc : json :=
  JObj [("status", JStr "healthy"); ("version", JStr "28.0.1-mock")].

Definition datasources_doc : json :=
  JArr [JStr "wikipedia"; JStr "koalas"; JStr "flights"].

Definition segments_doc (name : string) : json :=
  JArr [JObj [("dataSource", JStr name);
              ("interval",
               JStr "2023-01-01T00:00:00.000Z/2023-01-02T00:00:00.000Z");
              ("version", JStr "2023-01-01T00:00:00.000Z");
              ("partition", JInt 0);
              ("size", JInt 1000000)]].

Definition metadata_doc (name : string) : json :=
  JObj [("name", JStr name);
        ("segments",
         JObj [("intervals",
                JArr [JStr
                  "2023-01-01T00:00:00.000Z/2023-01-02T00:00:00.000Z"])]);
        ("columns",
         JArr [JObj [("name", JStr "timestamp"); ("type", JStr "LONG")];
               JObj [("name", JStr "count"); ("type", JStr "LONG")];
               JObj [("name", JStr "dimension"); ("type", JStr "STRING")]]);
        ("queryGranularity", JStr "none");
        ("segmentGranularity", JStr "day");
        ("rollup", JBool false)].

Definition sql_doc : json := JArr [JArr [JStr "test"]; JArr [JInt 1]].

(** The reply with status 200 that carries [doc], and the 404 reply. *)
Definition json_reply (doc : json) : list wire :=
  [SendResponse 200; SendHeader "Content-type" "application/json";
   EndHeaders; Write (encode (json_dumps doc))].

Definition not_found : list wire := [SendResponse 404; EndHeaders].

(** A reply answers with [doc]: the handler returned, the status is 200,
    the one header is the JSON content type, and the body is the
    serialisation of [doc], which a client parses back to [doc]. *)
Definition answers (r : response) (doc : json) : Prop :=
  fst r = Ok tt /\
  status (snd r) = Some 200 /\
  sent_headers (snd r) = [("Content-type", "application/json")] /\
  body (snd r) = encode (json_dumps doc) /\
  json_loads (body (snd r)) = Some doc.

(** A reply is the bare 404: no header of the handler's, no body. *)
Definition answers_404 (r : response) : Prop :=
  fst r = Ok tt /\
  status (snd r) = Some 404 /\
  sent_headers (snd r) = [] /\
  body (snd r) = [].

(** The line [log_request] prints through [log_message]. *)
Definition access_log (line : string) (code : Z) : string :=
  "Mock Druid: " ++
  String dquote (line ++ String dquote (" " ++ str_int code ++ " -")).

(** [h] after the handler has put [ws] on the connection and printed
    [lines]. *)
Definition after (h : MockDruidHandler) (ws : list wire) (lines : list string)
  : MockDruidHandler :=
  mkHandler (command h) (path h) (requestline h) (headers h) (rfile h)
            (wfile h ++ ws) (stdout h ++ lines).

(** The reply to a request, leaving the standard output aside. *)
Definition reply (py_int : string -> option Z) (py_repr : string -> string)
    (req : request) (out : list string) : response :=
  fst (serve py_int py_repr req out).

(** The routing table of the specification. *)
Definition routed (command p : string) : bool :=
  (String.eqb command "GET" &&
     (String.eqb p "/status" || String.eqb p "/druid/v2/datasources"
      || startswith p coordinator_prefix))
  || (String.eqb command "POST" && String.eqb p "/druid/v2/sql").

(** [h] with [rfile] replaced. *)
Definition set_rfile (h : MockDruidHandler) (r : bytes)
  : MockDruidHandler :=
  mkHandler (command h) (path h) (requestline h) (headers h) r
            (wfile h) (stdout h).

(** The two lines [send_error] prints for a command without a method. *)
Definition unsupported_message (py_repr : string -> string) (cmd : string)
  : string :=
  "Unsupported method (" ++ py_repr cmd ++ ")".

Definition error_log (code : Z) (message : string) : string :=
  "Mock Druid: code " ++ str_int code ++ ", message " ++ message.

(** ** The connection *)

(** What the calls of a reply put on the connection, as the base class
    does it.  The status line and the headers are encoded in Latin-1 and
    kept in a buffer that [end_headers] flushes; [wfile.write] goes out at
    once; under the request version HTTP/0.9 neither a status line nor a
    header is sent.  [send_response] follows the status line with two
    headers of its own: Server, and Date with the text that
    [date_time_string] makes of the clock at that moment.  The handler
    stamps a reply at most once, so one [date] stands for the clock of a
    reply.  What depends on the Python installation stays open: the text
    of [version_string], the reason phrases of the table [responses]
    (empty where the table has none), and the page that [send_error]
    formats from a code and a message. *)
Definition crlf : string := String "013" (String "010" EmptyString).

Section BaseClass.

Variable version_string : string.
Variable responses : Z -> string.
Variable error_content : Z -> string -> bytes.

Definition status_line (code : Z) (message : string) : bytes :=
  list_byte_of_string
    ("HTTP/1.0" ++ " " ++ str_int code ++ " " ++ message ++ crlf).

Definition header_line (keyword value : string) : bytes :=
  list_byte_of_string (keyword ++ ": " ++ value ++ crlf).

(** [send_response]: the status line, Server and Date. *)
Definition response_head (code : Z) (message date : string) : bytes :=
  (status_line code message ++ header_line "Server" version_string
   ++ header_line "Date" date)%list.

(** [send_error] leaves the page out below 200 and for 204, 205 and 304,
    and does not write it in reply to a HEAD. *)
Definition error_has_body (code : Z) : bool :=
  (200 <=? code) && negb ((code =? 204) || (code =? 205) || (code =? 304)).

Definition error_headers (code : Z) (message : string) : bytes :=
  (header_line "Connection" "close" ++
   if error_has_body code then
     header_line "Content-Type" "text/html;charset=utf-8" ++
     header_line "Content-Length"
       (str_int (Z.of_nat (List.length (error_content code message))))
   else [])%list.

(** The bytes that reach the connection, [buffer] being the headers not
    yet flushed.  What is still in the buffer when the handler returns is
    never sent. *)
Fixpoint sent (request_version cmd date : string) (calls : list wire)
    (buffer : bytes) : bytes :=
  let with_headers := negb (String.eqb request_version "HTTP/0.9") in
  match calls with
  | [] => []
  | SendResponse code :: calls' =>
      sent request_version cmd date calls'
        (if with_headers
         then buffer ++ response_head code (responses code) date
         else buffer)%list
  | SendHeader keyword value :: calls' =>
      sent request_version cmd date calls'
        (if with_headers then buffer ++ header_line keyword value
         else buffer)%list
  | EndHeaders :: calls' =>
      if with_headers
      then (buffer ++ list_byte_of_string crlf
            ++ sent request_version cmd date calls' [])%list
      else sent request_version cmd date calls' buffer
  | Write data :: calls' =>
      (data ++ sent request_version cmd date calls' buffer)%list
  | ErrorPage code message :: calls' =>
      ((if with_headers
        then buffer ++ response_head code message date
             ++ error_headers code message ++ list_byte_of_string crlf
        else [])
       ++ (if error_has_body code && negb (String.eqb cmd "HEAD")
           then error_content code message else [])
       ++ sent request_version cmd date calls'
            (if with_headers then [] else buffer))%list
  end.

(** The bytes of the reply [r] to the request [req] of version
    [request_version], stamped with [date]. *)
Definition on_connection (request_version date : string) (req : request)
    (r : response) : bytes :=
  sent request_version (req_command req) date (snd r) [].

End BaseClass.

(** The bytes of the Date value in a reply: there is one when the handler
    got as far as the status line and the request version has headers. *)
Definition date_stamp (request_version date : string) (r : response)
  : bytes :=
  match status (snd r) with
  | Some _ =>
      if String.eqb request_version "HTTP/0.9" then []
      else list_byte_of_string date
  | None => []
  end.

(** ** Proof steps used more than once *)

(** One step of [skip_ws] on a text whose first character is known. *)
Ltac step_ws := cbn [skip_ws is_ws Ascii.eqb Bool.eqb orb].

(** Comparisons of two literal texts. *)
Ltac literal_tests := cbn [String.eqb Ascii.eqb Bool.eqb].

(** A comparison on [Z] that holds by arithmetic is [false]. *)
Ltac z_test :=
  symmetry;
  first [apply Z.ltb_ge | apply Z.leb_gt | apply Z.eqb_neq];
  lia.

(** * Properties *)

(** ** The model at work *)

Example dumps_sql :
  json_dumps (JArr [JArr [JStr "test"]; JArr [JInt 1]]) = lit "[['test'], [1]]".
Proof. reflexivity. Qed.

Example escape_ex :
  escape (String "233" (String dquote (String "010" "a/%"))) =
  String backslash "u00e9" ++ String backslash (String dquote EmptyString)
    ++ String backslash "na/%".
Proof. reflexivity. Qed.

Example split_ex :
  split "/" "/a//b/" = [EmptyString; "a"; EmptyString; "b"; EmptyString].
Proof. reflexivity. Qed.

Example index_ex :
  py_index (split "/" "/a/b") (-2) = Ok "a" /\
  py_index (split "/" "ab") (-2) = Raise IndexError.
Proof. split; reflexivity. Qed.

Example serve_status :
  serve int_decimal repr_plain (get "/status") [] =
  ((Ok tt,
    [SendResponse 200; SendHeader "Content-type" "application/json";
     EndHeaders;
     Write (list_byte_of_string
              (lit "{'status': 'healthy', 'version': '28.0.1-mock'}"))]),
   [lit "Mock Druid: 'GET /status HTTP/1.1' 200 -"]).
Proof. vm_compute. reflexivity. Qed.

Example serve_delete :
  serve int_decimal repr_plain
        (mkRequest "DELETE /status HTTP/1.1" "DELETE" "/status" [] []) [] =
  ((Ok tt, [ErrorPage 501 "Unsupported method ('DELETE')"]),
   ["Mock Druid: code 501, message Unsupported method ('DELETE')";
    lit "Mock Druid: 'DELETE /status HTTP/1.1' 501 -"]).
Proof. vm_compute. reflexivity. Qed.

Example serve_post_no_length :
  serve int_decimal repr_plain
        (mkRequest "POST /druid/v2/sql HTTP/1.1" "POST" "/druid/v2/sql"
                   [("Host", "localhost")] (list_byte_of_string "{}")) [] =
  ((Raise TypeError, []), []).
Proof. vm_compute. reflexivity. Qed.

Example serve_post :
  serve int_decimal repr_plain
        (mkRequest "POST /druid/v2/sql HTTP/1.1" "POST" "/druid/v2/sql"
                   [("Host", "localhost"); ("content-length", "2")]
                   (list_byte_of_string "{}")) [] =
  ((Ok tt,
    [SendResponse 200; SendHeader "Content-type" "application/json";
     EndHeaders; Write (list_byte_of_string (lit "[['test'], [1]]"))]),
   [lit "Mock Druid: 'POST /druid/v2/sql HTTP/1.1' 200 -"]).
Proof. vm_compute. reflexivity. Qed.

(** Lengths that [read] refuses: a negative one, and two that fit no
    index. *)
Example serve_post_refused :
  let post v :=
    serve int_decimal repr_plain
          (mkRequest "POST /druid/v2/sql HTTP/1.1" "POST" "/druid/v2/sql"
                     [("Content-Length", v)] (list_byte_of_string "{}")) []
  in
  post "-9223372036854775808" = ((Raise ValueError, []), []) /\
  post "-9223372036854775809" = ((Raise OverflowError, []), []) /\
  post "9223372036854775808" = ((Raise OverflowError, []), []).
Proof. vm_compute. repeat split. Qed.

Example loads_ex :
  json_loads (list_byte_of_string
     (lit " { 'a' : [1 , -20,[ ] , true], 'bA\n': {'c':null }} ")) =
  Some (JObj [("a", JArr [JInt 1; JInt (-20); JArr []; JBool true]);
              (String "b" (String "A" (String "010" EmptyString)),
               JObj [("c", JNull)])]).
Proof. vm_compute. reflexivity. Qed.

Example loads_bad :
  json_loads (list_byte_of_string (lit "[1, 2")) = None /\
  json_loads (list_byte_of_string (lit "[1] x")) = None /\
  json_loads (list_byte_of_string (lit "{'a' 1}")) = None /\
  json_loads (list_byte_of_string (lit "[007]")) = None /\
  json_loads (list_byte_of_string (lit "[1,]")) = None /\
  json_loads (list_byte_of_string (lit "-")) = None.
Proof. vm_compute. repeat split. Qed.

Example run_server_ex :
  run_server int_decimal repr_plain
     [get "/druid/v2/datasources"; get "/nothing";
      get "/druid/v2/datasources"] =
  ([(Ok tt, json_reply datasources_doc); (Ok tt, not_found);
    (Ok tt, json_reply datasources_doc)],
   ["Mock Druid server running on port 8082...";
    lit "Mock Druid: 'GET /druid/v2/datasources HTTP/1.1' 200 -";
    lit "Mock Druid: 'GET /nothing HTTP/1.1' 404 -";
    lit "Mock Druid: 'GET /druid/v2/datasources HTTP/1.1' 200 -"]).
Proof. vm_compute. reflexivity. Qed.

(** ** Texts *)

Lemma append_assoc (a b c : string) : (a ++ b) ++ c = a ++ (b ++ c).
Proof. induction a as [|x a IH]; simpl; [reflexivity | now rewrite IH]. Qed.

Lemma append_empty_r (a : string) : a ++ EmptyString = a.
Proof. induction a as [|x a IH]; simpl; [reflexivity | now rewrite IH]. Qed.

Lemma length_append (a b : string) :
  String.length (a ++ b) = (String.length a + String.length b)%nat.
Proof. induction a as [|x a IH]; simpl; [reflexivity | now rewrite IH]. Qed.

(** ** A string literal reads back as the text it was made from *)

Lemma read_chars_escape_char (c : ascii) (tail : string) :
  read_chars (escape_char c ++ tail) =
  match read_chars tail with
  | Some (t, r) => Some (String c t, r)
  | None => None
  end.
Proof.
  destruct c as [[] [] [] [] [] [] [] []]; reflexivity.
Qed.

Lemma read_chars_escape (s rest : string) :
  read_chars (escape s ++ String dquote rest) = Some (s, rest).
Proof.
  induction s as [|c s IH]; simpl.
  - reflexivity.
  - rewrite append_assoc, read_chars_escape_char, IH. reflexivity.
Qed.

Lemma read_chars_basestring (s rest : string) :
  exists r, encode_basestring_ascii s ++ rest = String dquote r /\
            read_chars r = Some (s, rest).
Proof.
  exists (escape s ++ String dquote rest). split.
  - unfold encode_basestring_ascii. simpl. now rewrite append_assoc.
  - apply read_chars_escape.
Qed.

(** ** An integer reads back as itself *)

Lemma span_digits_stop (rest : string) :
  digit_head rest = false -> span_digits rest = (EmptyString, rest).
Proof.
  destruct rest as [|c r]; simpl; [reflexivity | now intros ->].
Qed.

Lemma span_digits_uint (d : uint) (rest : string) :
  digit_head rest = false ->
  span_digits (NilEmpty.string_of_uint d ++ rest) =
  (NilEmpty.string_of_uint d, rest).
Proof.
  intros Hrest.
  induction d as [|d IH|d IH|d IH|d IH|d IH|d IH|d IH|d IH|d IH|d IH];
    simpl; [now apply span_digits_stop | ..];
    unfold is_digit; simpl; now rewrite IH.
Qed.

Lemma uint_head (d : uint) :
  d <> Nil ->
  exists c r, NilEmpty.string_of_uint d = String c r /\
              is_digit c = true /\ Ascii.eqb c "-" = false.
Proof.
  destruct d; [now intros [] | ..]; intros _; simpl;
    eexists; eexists; (split; [reflexivity | split; reflexivity]).
Qed.

(** [Pos.to_uint] writes no zero in front. *)
Lemma to_uint_no_leading_zero (p : positive) (u : uint) :
  Pos.to_uint p <> D0 u.
Proof.
  intros E.
  assert (Hnorm : unorm (Pos.to_uint p) = Pos.to_uint p).
  { rewrite <- Unsigned.to_of, Unsigned.of_to. reflexivity. }
  rewrite E, DecimalFacts.unorm_D0 in Hnorm.
  assert (Hle : u <> Nil -> False).
  { intros Hu. pose proof (DecimalFacts.nb_digits_unorm u Hu) as Hle.
    rewrite Hnorm in Hle. cbn [nb_digits] in Hle. lia. }
  destruct u; try (apply Hle; discriminate).
  exact (Unsigned.to_uint_nonzero p E).
Qed.

Lemma leading_zero_uint (u : uint) :
  (forall u', u <> D0 u') \/ u = D0 Nil ->
  leading_zero (NilEmpty.string_of_uint u) = false.
Proof.
  intros [H | ->]; [| reflexivity].
  destruct u as [|u0|u0|u0|u0|u0|u0|u0|u0|u0|u0];
    [reflexivity | now destruct (H u0) | ..];
    cbn [NilEmpty.string_of_uint leading_zero];
    now destruct (NilEmpty.string_of_uint u0).
Qed.

Lemma read_int_of_int (d : Decimal.int) (rest : string) :
  (forall u', abs d <> D0 u') \/ abs d = D0 Nil ->
  abs d <> Nil ->
  digit_head rest = false ->
  read_int (NilZero.string_of_int d ++ rest) = Some (Z.of_int d, rest).
Proof.
  intros Hz Hu Hrest. unfold read_int.
  assert (Hnz : NilZero.string_of_uint (abs d)
                = NilEmpty.string_of_uint (abs d))
    by (destruct (abs d); [now destruct Hu | reflexivity ..]).
  pose proof (NilZero.usu (abs d) Hu) as Husu. rewrite Hnz in Husu.
  pose proof (span_digits_uint (abs d) rest Hrest) as Hspan.
  pose proof (leading_zero_uint (abs d) Hz) as Hlz.
  destruct d as [u|u]; cbn [abs NilZero.string_of_int Z.of_int] in *;
    rewrite Hnz.
  - destruct (uint_head u Hu) as (c & r & Hs & _ & Hm).
    rewrite Hs in *. cbn [append]. rewrite Hm.
    cbn [append] in Hspan. rewrite Hspan, Hlz, Husu. reflexivity.
  - cbn [append]. rewrite Ascii.eqb_refl, Hspan, Hlz, Husu. reflexivity.
Qed.

Lemma to_int_proper (n : Z) :
  ((forall u', abs (Z.to_int n) <> D0 u') \/ abs (Z.to_int n) = D0 Nil)
  /\ abs (Z.to_int n) <> Nil.
Proof.
  destruct n as [|p|p]; cbn [Z.to_int abs].
  - split; [right; reflexivity | discriminate].
  - split; [left; apply to_uint_no_leading_zero
           | apply Unsigned.to_uint_nonnil].
  - split; [left; apply to_uint_no_leading_zero
           | apply Unsigned.to_uint_nonnil].
Qed.

Lemma read_int_str_int (n : Z) (rest : string) :
  digit_head rest = false ->
  read_int (str_int n ++ rest) = Some (n, rest).
Proof.
  intros Hrest. unfold str_int.
  destruct (to_int_proper n) as [Hz Hu].
  rewrite (read_int_of_int _ rest Hz Hu Hrest).
  now rewrite DecimalZ.of_to.
Qed.

(** The first character of [str(n)] is a digit or the minus sign. *)
Lemma str_int_head (n : Z) :
  exists c r, str_int n = String c r /\
              (Ascii.eqb c "-" || is_digit c) = true.
Proof.
  unfold str_int. destruct (to_int_proper n) as [_ Hu].
  destruct (Z.to_int n) as [u|u]; cbn [abs] in Hu.
  - destruct (uint_head u Hu) as (c & r & Hs & Hd & _).
    exists c, r. split.
    + destruct u; [now destruct Hu | exact Hs ..].
    + now rewrite Hd, orb_true_r.
  - exists "-"%char. eexists. split; reflexivity.
Qed.

(** ** [json.dumps] followed by the reader gives the value back *)

Lemma number_start_plain (c : ascii) :
  (Ascii.eqb c "-" || is_digit c) = true ->
  is_ws c = false /\ Ascii.eqb c "]" = false.
Proof.
  destruct c as [[] [] [] [] [] [] [] []]; simpl; intros H;
    try discriminate H; split; reflexivity.
Qed.

(** A serialised value starts with a character that is neither white
    space nor a closing bracket. *)
Lemma dumps_head (v : json) (tail : string) :
  exists c r, json_dumps v ++ tail = String c r /\
              is_ws c = false /\ Ascii.eqb c "]" = false.
Proof.
  destruct v as [|[]|n|s|items|members]; simpl;
    try (eexists; eexists; split; [reflexivity | split; reflexivity]).
  destruct (str_int_head n) as (c & r & Hs & Hc).
  rewrite Hs. simpl. exists c, (r ++ tail).
  split; [reflexivity | now apply number_start_plain].
Qed.

Lemma skip_ws_dumps (v : json) (tail : string) :
  skip_ws (json_dumps v ++ tail) = json_dumps v ++ tail.
Proof.
  destruct (dumps_head v tail) as (c & r & -> & Hws & _).
  simpl. now rewrite Hws.
Qed.

Lemma dumps_length_pos (v : json) : (1 <= String.length (json_dumps v))%nat.
Proof.
  destruct (dumps_head v EmptyString) as (c & r & H & _).
  rewrite append_empty_r in H. rewrite H. simpl. lia.
Qed.

Lemma read_value_eq (f : nat) (s : string) :
  read_value (S f) s =
  match skip_ws s with
  | EmptyString => None
  | String c r =>
      if Ascii.eqb c "-" || is_digit c then
        match read_int (String c r) with
        | Some (n, r1) => Some (JInt n, r1)
        | None => None
        end
      else if Ascii.eqb c "[" then
        match skip_ws r with
        | EmptyString => None
        | String c' r' =>
            if Ascii.eqb c' "]" then Some (JArr [], r')
            else match read_items f r with
                 | Some (vs, r1) => Some (JArr vs, r1)
                 | None => None
                 end
        end
      else if Ascii.eqb c "{" then
        match skip_ws r with
        | EmptyString => None
        | String c' r' =>
            if Ascii.eqb c' "}" then Some (JObj [], r')
            else match read_members f r with
                 | Some (ms, r1) => Some (JObj ms, r1)
                 | None => None
                 end
        end
      else if Ascii.eqb c dquote then
        match read_chars r with
        | Some (t, r1) => Some (JStr t, r1)
        | None => None
        end
      else if startswith (String c r) "true" then
        Some (JBool true, drop 4 (String c r))
      else if startswith (String c r) "false" then
        Some (JBool false, drop 5 (String c r))
      else if startswith (String c r) "null" then
        Some (JNull, drop 4 (String c r))
      else None
  end.
Proof. reflexivity. Qed.

Lemma read_items_eq (f : nat) (s : string) :
  read_items (S f) s =
  match read_value f s with
  | None => None
  | Some (v, r) =>
      match skip_ws r with
      | EmptyString => None
      | String c r' =>
          if Ascii.eqb c "," then
            match read_items f r' with
            | Some (vs, r1) => Some (v :: vs, r1)
            | None => None
            end
          else if Ascii.eqb c "]" then Some ([v], r')
          else None
      end
  end.
Proof. reflexivity. Qed.

Lemma read_members_eq (f : nat) (s : string) :
  read_members (S f) s =
  match skip_ws s with
  | EmptyString => None
  | String q r =>
      if Ascii.eqb q dquote then
        match read_chars r with
        | None => None
        | Some (k, r1) =>
            match skip_ws r1 with
            | EmptyString => None
            | String c r2 =>
                if Ascii.eqb c ":" then
                  match read_value f r2 with
                  | None => None
                  | Some (v, r3) =>
                      match skip_ws r3 with
                      | EmptyString => None
                      | String c' r4 =>
                          if Ascii.eqb c' "," then
                            match read_members f r4 with
                            | Some (ms, r5) => Some ((k, v) :: ms, r5)
                            | None => None
                            end
                          else if Ascii.eqb c' "}" then Some ([(k, v)], r4)
                          else None
                      end
                  end
                else None
            end
        end
      else None
  end.
Proof. reflexivity. Qed.

Lemma join_cons2 (sep p q : string) (ps : list string) :
  join sep (p :: q :: ps) = p ++ sep ++ join sep (q :: ps).
Proof. reflexivity. Qed.

Lemma skip_ws_items (vs : list json) (tail : string) :
  vs <> [] ->
  skip_ws (join ", " (map json_dumps vs) ++ tail) =
  join ", " (map json_dumps vs) ++ tail.
Proof.
  destruct vs as [|v [|v2 vs]]; [congruence | intros _ ..].
  - apply skip_ws_dumps.
  - cbn [map]. rewrite join_cons2, append_assoc. apply skip_ws_dumps.
Qed.

Lemma read_items_dumps (vs : list json) :
  Forall reads_back vs -> vs <> [] ->
  forall (fuel : nat) (s rest : string),
    skip_ws s = join ", " (map json_dumps vs) ++ String "]" rest ->
    (String.length (join ", " (map json_dumps vs)) + 1 < fuel)%nat ->
    read_items fuel s = Some (vs, rest).
Proof.
  induction 1 as [|v vs Hv Hvs IH]; [congruence | intros _].
  intros fuel s rest Hs Hfuel.
  destruct fuel as [|f]; [lia |].
  rewrite read_items_eq.
  destruct vs as [|v2 vs].
  - cbn [map join] in Hs, Hfuel.
    rewrite (Hv f s (String "]" rest) Hs eq_refl) by lia.
    reflexivity.
  - cbn [map] in Hs, Hfuel. rewrite join_cons2 in Hs, Hfuel.
    change (json_dumps v2 :: map json_dumps vs)
      with (map json_dumps (v2 :: vs)) in *.
    remember (join ", " (map json_dumps (v2 :: vs))) as J eqn:EJ.
    rewrite !length_append in Hfuel.
    change (String.length ", ") with 2%nat in Hfuel.
    rewrite !append_assoc in Hs.
    rewrite (Hv f s _ Hs eq_refl) by lia.
    change (", " ++ J ++ String "]" rest)
      with (String "," (String " " (J ++ String "]" rest))).
    step_ws.
    rewrite (IH ltac:(discriminate) f (String " " (J ++ String "]" rest)) rest);
      [reflexivity | | lia].
    subst J. step_ws.
    apply skip_ws_items. discriminate.
Qed.

Lemma member_shape (k : string) (v : json) (tail : string) :
  (encode_basestring_ascii k ++ ": " ++ json_dumps v) ++ tail =
  String dquote
    (escape k ++
     String dquote (String ":" (String " " (json_dumps v ++ tail)))).
Proof.
  unfold encode_basestring_ascii. cbn [append].
  now rewrite !append_assoc.
Qed.

Lemma skip_ws_members (ms : list (string * json)) (tail : string) :
  ms <> [] ->
  exists r, join ", " (map member_text ms) ++ tail = String dquote r /\
            skip_ws (String dquote r) = String dquote r.
Proof.
  destruct ms as [|[k v] [|kv ms]]; [congruence | intros _ ..].
  - cbn [map join]. unfold member_text. cbn [fst snd].
    rewrite member_shape. eexists. split; reflexivity.
  - cbn [map]. rewrite join_cons2, append_assoc. unfold member_text at 1.
    cbn [fst snd]. rewrite member_shape. eexists. split; reflexivity.
Qed.

Lemma read_members_dumps (ms : list (string * json)) :
  Forall (fun kv => reads_back (snd kv)) ms -> ms <> [] ->
  forall (fuel : nat) (s rest : string),
    skip_ws s = join ", " (map member_text ms) ++ String "}" rest ->
    (String.length (join ", " (map member_text ms)) + 1 < fuel)%nat ->
    read_members fuel s = Some (ms, rest).
Proof.
  induction 1 as [|[k v] ms Hv Hms IH]; [congruence | intros _].
  cbn [snd] in Hv.
  intros fuel s rest Hs Hfuel.
  destruct fuel as [|f]; [lia |].
  rewrite read_members_eq.
  destruct ms as [|kv2 ms].
  - cbn [map join] in Hs, Hfuel. unfold member_text in Hs, Hfuel.
    cbn [fst snd] in Hs, Hfuel.
    rewrite member_shape in Hs. rewrite !length_append in Hfuel.
    rewrite Hs, Ascii.eqb_refl, read_chars_escape.
    step_ws.
    rewrite (Hv f (String " " (json_dumps v ++ String "}" rest))
               (String "}" rest)); [reflexivity | | reflexivity | lia].
    step_ws. apply skip_ws_dumps.
  - cbn [map] in Hs, Hfuel. rewrite join_cons2 in Hs, Hfuel.
    change (member_text kv2 :: map member_text ms)
      with (map member_text (kv2 :: ms)) in *.
    remember (join ", " (map member_text (kv2 :: ms))) as J eqn:EJ.
    unfold member_text in Hs, Hfuel. cbn [fst snd] in Hs, Hfuel.
    rewrite !length_append in Hfuel.
    change (String.length ", ") with 2%nat in Hfuel.
    rewrite (append_assoc
               (encode_basestring_ascii k ++ ": " ++ json_dumps v)) in Hs.
    rewrite (append_assoc ", " J) in Hs.
    rewrite member_shape in Hs.
    rewrite Hs, Ascii.eqb_refl, read_chars_escape.
    step_ws.
    rewrite (Hv f (String " "
                     (json_dumps v ++ ", " ++ J ++ String "}" rest))
               (", " ++ J ++ String "}" rest));
      [ | step_ws; apply skip_ws_dumps
        | reflexivity | lia].
    change (", " ++ J ++ String "}" rest)
      with (String "," (String " " (J ++ String "}" rest))).
    step_ws.
    rewrite (IH ltac:(discriminate) f (String " " (J ++ String "}" rest)) rest);
      [reflexivity | | lia].
    subst J. step_ws.
    destruct (skip_ws_members (kv2 :: ms) (String "}" rest)
                ltac:(discriminate)) as (r & -> & Hr).
    exact Hr.
Qed.

Lemma arr_shape (items : list json) (rest : string) :
  json_dumps (JArr items) ++ rest =
  String "[" (join ", " (map json_dumps items) ++ String "]" rest).
Proof. cbn [json_dumps append]. now rewrite append_assoc. Qed.

Lemma obj_shape (members : list (string * json)) (rest : string) :
  json_dumps (JObj members) ++ rest =
  String "{" (join ", " (map member_text members) ++ String "}" rest).
Proof. cbn [json_dumps append]. now rewrite append_assoc. Qed.

Lemma arr_length (items : list json) :
  String.length (json_dumps (JArr items)) =
  (String.length (join ", " (map json_dumps items)) + 2)%nat.
Proof.
  cbn [json_dumps append String.length]. rewrite length_append.
  change (String.length "]") with 1%nat. lia.
Qed.

Lemma obj_length (members : list (string * json)) :
  String.length (json_dumps (JObj members)) =
  (String.length (join ", " (map member_text members)) + 2)%nat.
Proof.
  change (json_dumps (JObj members))
    with (String "{" (join ", " (map member_text members) ++ "}")).
  cbn [String.length]. rewrite length_append.
  change (String.length "}") with 1%nat. lia.
Qed.

Lemma read_value_array (f : nat) (s r : string) :
  skip_ws s = String "[" r ->
  read_value (S f) s =
  match skip_ws r with
  | EmptyString => None
  | String c' r' =>
      if Ascii.eqb c' "]" then Some (JArr [], r')
      else match read_items f r with
           | Some (vs, r1) => Some (JArr vs, r1)
           | None => None
           end
  end.
Proof. intros H. rewrite read_value_eq, H. reflexivity. Qed.

Lemma read_value_object (f : nat) (s r : string) :
  skip_ws s = String "{" r ->
  read_value (S f) s =
  match skip_ws r with
  | EmptyString => None
  | String c' r' =>
      if Ascii.eqb c' "}" then Some (JObj [], r')
      else match read_members f r with
           | Some (ms, r1) => Some (JObj ms, r1)
           | None => None
           end
  end.
Proof. intros H. rewrite read_value_eq, H. reflexivity. Qed.

Lemma items_head (vs : list json) (tail : string) :
  vs <> [] ->
  exists c r, join ", " (map json_dumps vs) ++ tail = String c r /\
              is_ws c = false /\ Ascii.eqb c "]" = false.
Proof.
  destruct vs as [|v [|v2 vs]]; [congruence | intros _ ..].
  - apply dumps_head.
  - cbn [map]. rewrite join_cons2, append_assoc. apply dumps_head.
Qed.

Theorem read_value_dumps (v : json) : reads_back v.
Proof.
  induction v as [|b|n|t|items IH|members IH] using json_ind;
    intros fuel s rest Hs Hrest Hfuel;
    (destruct fuel as [|f]; [lia |]).
  - rewrite read_value_eq, Hs. reflexivity.
  - rewrite read_value_eq, Hs. destruct b; reflexivity.
  - destruct (str_int_head n) as (c & r & Hn & Hc).
    pose proof (read_int_str_int n rest Hrest) as Hri.
    rewrite read_value_eq, Hs. cbn [json_dumps]. rewrite Hn in *.
    cbn [append] in *. now rewrite Hc, Hri.
  - rewrite read_value_eq, Hs. cbn [json_dumps].
    unfold encode_basestring_ascii.
    cbn [append]. rewrite append_assoc. cbn [append].
    rewrite read_chars_escape. reflexivity.
  - rewrite arr_length in Hfuel. rewrite arr_shape in Hs.
    rewrite (read_value_array f s _ Hs).
    destruct items as [|v vs]; [reflexivity |].
    rewrite (read_items_dumps (v :: vs) IH ltac:(discriminate) f _ rest
               (skip_ws_items (v :: vs) _ ltac:(discriminate)))
      by lia.
    rewrite skip_ws_items by discriminate.
    destruct (items_head (v :: vs) (String "]" rest) ltac:(discriminate))
      as (c & r & -> & _ & ->).
    reflexivity.
  - rewrite obj_length in Hfuel. rewrite obj_shape in Hs.
    rewrite (read_value_object f s _ Hs).
    destruct members as [|kv ms]; [reflexivity |].
    destruct (skip_ws_members (kv :: ms) (String "}" rest)
                ltac:(discriminate)) as (r & Hr & Hsk).
    assert (Hrd : read_members f
                    (join ", " (map member_text (kv :: ms)) ++ String "}" rest)
                  = Some (kv :: ms, rest)).
    { apply read_members_dumps; [exact IH | discriminate | | lia].
      now rewrite Hr, Hsk. }
    rewrite Hrd, Hr, Hsk. reflexivity.
Qed.

(** ** The serialised text is ASCII, so [encode] keeps it byte for byte *)

Lemma ascii_only_append (a b : string) :
  ascii_only (a ++ b) = ascii_only a && ascii_only b.
Proof.
  induction a as [|c a IH]; simpl; [reflexivity |].
  now rewrite IH, andb_assoc.
Qed.

Lemma ascii_only_escape (s : string) : ascii_only (escape s) = true.
Proof.
  induction s as [|c s IH]; simpl; [reflexivity |].
  rewrite ascii_only_append, IH, andb_true_r.
  destruct c as [[] [] [] [] [] [] [] []]; reflexivity.
Qed.

Lemma ascii_only_basestring (s : string) :
  ascii_only (encode_basestring_ascii s) = true.
Proof.
  unfold encode_basestring_ascii. cbn [ascii_only].
  rewrite ascii_only_append, ascii_only_escape. reflexivity.
Qed.

Lemma ascii_only_uint (d : uint) :
  ascii_only (NilEmpty.string_of_uint d) = true.
Proof. induction d; simpl; auto. Qed.

Lemma ascii_only_str_int (n : Z) : ascii_only (str_int n) = true.
Proof.
  unfold str_int.
  destruct (Z.to_int n) as [u|u]; cbn [NilZero.string_of_int ascii_only];
    (destruct u; [reflexivity | apply ascii_only_uint ..]).
Qed.

Lemma ascii_only_join (parts : list string) :
  Forall (fun p => ascii_only p = true) parts ->
  ascii_only (join ", " parts) = true.
Proof.
  induction 1 as [|p ps Hp Hps IH]; [reflexivity |].
  destruct ps as [|q ps]; [exact Hp |].
  rewrite join_cons2, !ascii_only_append, Hp, IH. reflexivity.
Qed.

Lemma ascii_only_dumps (v : json) : ascii_only (json_dumps v) = true.
Proof.
  induction v as [|b|n|t|items IH|members IH] using json_ind.
  - reflexivity.
  - destruct b; reflexivity.
  - apply ascii_only_str_int.
  - apply ascii_only_basestring.
  - change (json_dumps (JArr items))
      with (String "[" (join ", " (map json_dumps items) ++ "]")).
    cbn [ascii_only]. rewrite ascii_only_append, ascii_only_join.
    + reflexivity.
    + rewrite Forall_map. exact IH.
  - change (json_dumps (JObj members))
      with (String "{" (join ", " (map member_text members) ++ "}")).
    cbn [ascii_only]. rewrite ascii_only_append, ascii_only_join.
    + reflexivity.
    + rewrite Forall_map. revert IH. apply Forall_impl. intros [k x] Hx.
      unfold member_text. cbn [fst snd] in *.
      rewrite !ascii_only_append, ascii_only_basestring, Hx. reflexivity.
Qed.

Lemma byte_of_ascii_small (c : ascii) :
  is_ascii_byte (byte_of_ascii c) = (N_of_ascii c <? 128)%N.
Proof. destruct c as [[] [] [] [] [] [] [] []]; reflexivity. Qed.

Lemma encode_ascii_only (s : string) :
  ascii_only s = true ->
  encode s = list_byte_of_string s /\
  forallb is_ascii_byte (list_byte_of_string s) = true.
Proof.
  induction s as [|c s IH]; [split; reflexivity |].
  cbn [ascii_only]. intros [Hc Hs]%andb_true_iff.
  destruct (IH Hs) as [IHe IHf].
  split.
  - cbn [encode]. unfold encode_char. rewrite Hc, IHe. reflexivity.
  - change (list_byte_of_string (String c s))
      with (byte_of_ascii c :: list_byte_of_string s).
    cbn [forallb]. rewrite byte_of_ascii_small, Hc, IHf. reflexivity.
Qed.

(** A client that parses the bytes the handler writes for [v] gets [v]. *)
Theorem json_loads_dumps (v : json) :
  json_loads (encode (json_dumps v)) = Some v.
Proof.
  destruct (encode_ascii_only _ (ascii_only_dumps v)) as [-> Hascii].
  unfold json_loads. rewrite Hascii, string_of_list_byte_of_string.
  rewrite (read_value_dumps v (S (String.length (json_dumps v)))
             (json_dumps v) EmptyString).
  - reflexivity.
  - rewrite append_empty_r. rewrite <- (append_empty_r (json_dumps v)) at 1.
    now rewrite skip_ws_dumps, append_empty_r.
  - reflexivity.
  - lia.
Qed.

(** ** Splitting a path *)

Lemma split_not_nil (sep : ascii) (s : string) : split sep s <> [].
Proof.
  induction s as [|c s IH]; simpl; [discriminate |].
  destruct (Ascii.eqb c sep); [discriminate |].
  destruct (split sep s); [contradiction | discriminate].
Qed.

Lemma split_plain (sep : ascii) (s : string) :
  contains sep s = false -> split sep s = [s].
Proof.
  induction s as [|c s IH]; simpl; [reflexivity |].
  intros [Hc Hs]%orb_false_iff. rewrite Hc, (IH Hs). reflexivity.
Qed.

Lemma split_append_sep (sep : ascii) (a b : string) :
  split sep (a ++ String sep b) = (split sep a ++ split sep b)%list.
Proof.
  induction a as [|c a IH]; simpl.
  - now rewrite Ascii.eqb_refl.
  - destruct (Ascii.eqb c sep); [now rewrite IH |].
    rewrite IH.
    destruct (split sep a) as [|t ts] eqn:E; [|reflexivity].
    now destruct (split_not_nil sep a).
Qed.

Lemma py_index_last {A : Type} (xs : list A) (a : A) :
  py_index (xs ++ [a]) (-1) = Ok a.
Proof.
  unfold py_index. rewrite length_app. cbn [List.length Z.ltb Z.compare].
  set (n := List.length xs).
  replace (-1 + Z.of_nat (n + 1)) with (Z.of_nat n) by lia.
  replace (Z.of_nat n <? 0) with false by z_test.
  replace (Z.of_nat (n + 1) <=? Z.of_nat n) with false
    by z_test.
  cbn [orb]. rewrite Nat2Z.id. subst n.
  rewrite nth_error_app2, Nat.sub_diag by lia. reflexivity.
Qed.

Lemma py_index_before_last {A : Type} (xs : list A) (a b : A) :
  py_index (xs ++ [a; b]) (-2) = Ok a.
Proof.
  unfold py_index. rewrite length_app. cbn [List.length Z.ltb Z.compare].
  set (n := List.length xs).
  replace (-2 + Z.of_nat (n + 2)) with (Z.of_nat n) by lia.
  replace (Z.of_nat n <? 0) with false by z_test.
  replace (Z.of_nat (n + 2) <=? Z.of_nat n) with false
    by z_test.
  cbn [orb]. rewrite Nat2Z.id. subst n.
  rewrite nth_error_app2, Nat.sub_diag by lia. reflexivity.
Qed.

(** [xs[-1]] is the last element of a list that is not empty. *)
Lemma py_index_minus_1 (xs : list string) :
  xs <> [] -> py_index xs (-1) = Ok (List.last xs EmptyString).
Proof.
  intros H. destruct (exists_last H) as (ys & a & ->).
  now rewrite py_index_last, last_last.
Qed.

(** [xs[-2]] is the last but one element of a list of two or more. *)
Lemma py_index_minus_2 (xs : list string) :
  (2 <= List.length xs)%nat ->
  py_index xs (-2) = Ok (List.last (List.removelast xs) EmptyString).
Proof.
  intros H.
  assert (Hx : xs <> []) by (intros ->; simpl in H; lia).
  destruct (exists_last Hx) as (ys & b & ->).
  rewrite length_app in H. cbn [List.length] in H.
  assert (Hy : ys <> []) by (intros ->; simpl in H; lia).
  destruct (exists_last Hy) as (zs & a & ->).
  rewrite removelast_last, last_last, <- app_assoc.
  apply py_index_before_last.
Qed.

Lemma startswith_append (p r : string) : startswith (p ++ r) p = true.
Proof.
  induction p as [|c p IH]; simpl; [reflexivity |].
  now rewrite Ascii.eqb_refl, IH.
Qed.

Lemma startswith_inv (p s : string) :
  startswith s p = true -> exists r, s = p ++ r.
Proof.
  revert s. induction p as [|c p IH]; intros s H.
  - exists s. reflexivity.
  - destruct s as [|x s]; [discriminate |]. simpl in H.
    apply andb_true_iff in H as [Hc Hs].
    apply Ascii.eqb_eq in Hc. subst x.
    destruct (IH s Hs) as (r & ->). exists r. reflexivity.
Qed.

(** ** Running the base class *)

Lemma answers_json_reply (doc : json) : answers (Ok tt, json_reply doc) doc.
Proof.
  unfold answers, json_reply. cbn [fst snd status sent_headers body].
  rewrite app_nil_r. repeat split. apply json_loads_dumps.
Qed.

Lemma answers_not_found : answers_404 (Ok tt, not_found).
Proof. repeat split. Qed.

Lemma run_send_response (code : Z) (h : MockDruidHandler) :
  send_response code h =
  (Ok tt, after h [SendResponse code] [access_log (requestline h) code]).
Proof. reflexivity. Qed.

Lemma after_after (h : MockDruidHandler) (ws ws' : list wire)
    (ls ls' : list string) :
  after (after h ws ls) ws' ls' = after h (ws ++ ws') (ls ++ ls').
Proof. unfold after. cbn. now rewrite <- !app_assoc. Qed.

Lemma run_emit (w : wire) (h : MockDruidHandler) :
  emit w h = (Ok tt, after h [w] []).
Proof. unfold emit, after. now rewrite app_nil_r. Qed.

Lemma run_json_reply (code : Z) (k v : string) (data : bytes)
    (h : MockDruidHandler) :
  (send_response code ;; send_header k v ;; end_headers ;; wfile_write data) h
  = (Ok tt,
     after h [SendResponse code; SendHeader k v; EndHeaders; Write data]
           [access_log (requestline h) code]).
Proof.
  unfold bind. rewrite run_send_response.
  unfold send_header, end_headers, wfile_write.
  rewrite !run_emit, !after_after. reflexivity.
Qed.

Lemma run_not_found (code : Z) (h : MockDruidHandler) :
  (send_response code ;; end_headers) h
  = (Ok tt,
     after h [SendResponse code; EndHeaders]
           [access_log (requestline h) code]).
Proof.
  unfold bind. rewrite run_send_response. unfold end_headers.
  rewrite run_emit, after_after. reflexivity.
Qed.

(** ** What each method does, branch by branch *)

Lemma do_GET_run (h : MockDruidHandler) :
  do_GET h =
  if String.eqb (path h) "/status" then
    (Ok tt, after h (json_reply status_doc) [access_log (requestline h) 200])
  else if String.eqb (path h) "/druid/v2/datasources" then
    (Ok tt,
     after h (json_reply datasources_doc) [access_log (requestline h) 200])
  else if startswith (path h) coordinator_prefix then
    match py_index (split "/" (path h)) (-1) with
    | Raise e => (Raise e, h)
    | Ok t =>
        if String.eqb t "segments" then
          match py_index (split "/" (path h)) (-2) with
          | Raise e => (Raise e, h)
          | Ok ds =>
              (Ok tt,
               after h (json_reply (segments_doc ds))
                     [access_log (requestline h) 200])
          end
        else
          (Ok tt,
           after h (json_reply (metadata_doc t))
                 [access_log (requestline h) 200])
    end
  else (Ok tt, after h not_found [access_log (requestline h) 404]).
Proof.
  unfold do_GET. unfold bind at 1. unfold get_path. unfold coordinator_prefix.
  destruct (String.eqb (path h) "/status");
    [exact (run_json_reply _ _ _ _ h) |].
  destruct (String.eqb (path h) "/druid/v2/datasources");
    [exact (run_json_reply _ _ _ _ h) |].
  destruct (startswith (path h) "/druid/coordinator/v1/datasources/");
    [| exact (run_not_found _ h)].
  unfold bind at 1. unfold lift.
  destruct (py_index (split "/" (path h)) (-1)) as [t|e]; [| reflexivity].
  destruct (String.eqb t "segments");
    [| exact (run_json_reply _ _ _ _ h)].
  unfold bind at 1.
  destruct (py_index (split "/" (path h)) (-2)) as [ds|e]; [| reflexivity].
  exact (run_json_reply _ _ _ _ h).
Qed.

Lemma do_POST_run (py_int : string -> option Z) (h : MockDruidHandler) :
  do_POST py_int h =
  if String.eqb (path h) "/druid/v2/sql" then
    match headers_lookup (headers h) "Content-Length" with
    | None => (Raise TypeError, h)
    | Some v =>
        match py_int v with
        | None => (Raise ValueError, h)
        | Some n =>
            match read_fault n (rfile h) with
            | Some e => (Raise e, h)
            | None =>
                (Ok tt,
                 after (set_rfile h (if n =? -1 then []
                                     else skipn (Z.to_nat n) (rfile h)))
                       (json_reply sql_doc)
                       [access_log (requestline h) 200])
            end
        end
    end
  else (Ok tt, after h not_found [access_log (requestline h) 404]).
Proof.
  unfold do_POST. unfold bind at 1. unfold get_path.
  destruct (String.eqb (path h) "/druid/v2/sql");
    [| exact (run_not_found _ h)].
  unfold bind at 1. unfold headers_get.
  unfold bind at 1. unfold lift, int.
  destruct (headers_lookup (headers h) "Content-Length") as [v|];
    [| reflexivity].
  destruct (py_int v) as [n|]; [| reflexivity].
  unfold bind at 1. unfold rfile_read.
  destruct (read_fault n (rfile h)); [reflexivity |].
  destruct (n =? -1); exact (run_json_reply _ _ _ _ _).
Qed.

Lemma percent_error (c message : string) :
  py_percent "code %d, message %s" [c; message] =
  Ok ("code " ++ c ++ ", message " ++ message).
Proof.
  cbn [py_percent Ascii.eqb Bool.eqb orb]. cbn [append].
  now rewrite append_empty_r.
Qed.

Lemma run_log_request (code : Z) (h : MockDruidHandler) :
  log_request code h = (Ok tt, after h [] [access_log (requestline h) code]).
Proof. unfold after. rewrite app_nil_r. reflexivity. Qed.

Lemma handle_one_request_run (py_int : string -> option Z)
    (py_repr : string -> string) (h : MockDruidHandler) :
  handle_one_request py_int py_repr h =
  if String.eqb (command h) "GET" then do_GET h
  else if String.eqb (command h) "POST" then do_POST py_int h
  else
    (Ok tt,
     after h [ErrorPage 501 (unsupported_message py_repr (command h))]
           [error_log 501 (unsupported_message py_repr (command h));
            access_log (requestline h) 501]).
Proof.
  unfold handle_one_request. unfold bind at 1. unfold get_command.
  destruct (String.eqb (command h) "GET"); [reflexivity |].
  destruct (String.eqb (command h) "POST"); [reflexivity |].
  fold (unsupported_message py_repr (command h)).
  unfold send_error. unfold bind at 1.
  unfold log_message at 1. unfold bind at 1. unfold lift.
  rewrite percent_error.
  fold (error_log 501 (unsupported_message py_repr (command h))).
  unfold print at 1. unfold bind at 1.
  rewrite run_log_request, run_emit, after_after.
  unfold after. cbn [command path requestline headers rfile wfile stdout].
  rewrite <- !app_assoc. reflexivity.
Qed.

(** ** Replies *)

Lemma reply_GET (py_int : string -> option Z) (py_repr : string -> string)
    (line p : string) (hs : list (string * string)) (b : bytes)
    (out : list string) :
  reply py_int py_repr (mkRequest line "GET" p hs b) out =
  if String.eqb p "/status" then (Ok tt, json_reply status_doc)
  else if String.eqb p "/druid/v2/datasources" then
    (Ok tt, json_reply datasources_doc)
  else if startswith p coordinator_prefix then
    match py_index (split "/" p) (-1) with
    | Raise e => (Raise e, [])
    | Ok t =>
        if String.eqb t "segments" then
          match py_index (split "/" p) (-2) with
          | Raise e => (Raise e, [])
          | Ok ds => (Ok tt, json_reply (segments_doc ds))
          end
        else (Ok tt, json_reply (metadata_doc t))
    end
  else (Ok tt, not_found).
Proof.
  unfold reply, serve. rewrite handle_one_request_run.
  cbn [new_handler command req_command String.eqb Ascii.eqb Bool.eqb].
  rewrite do_GET_run.
  cbn [new_handler path req_path requestline req_line].
  destruct (String.eqb p "/status"); [reflexivity |].
  destruct (String.eqb p "/druid/v2/datasources"); [reflexivity |].
  destruct (startswith p coordinator_prefix); [| reflexivity].
  destruct (py_index (split "/" p) (-1)) as [t|e]; [| reflexivity].
  destruct (String.eqb t "segments"); [| reflexivity].
  destruct (py_index (split "/" p) (-2)) as [ds|e]; reflexivity.
Qed.

Lemma reply_POST (py_int : string -> option Z) (py_repr : string -> string)
    (line p : string) (hs : list (string * string)) (b : bytes)
    (out : list string) :
  reply py_int py_repr (mkRequest line "POST" p hs b) out =
  if String.eqb p "/druid/v2/sql" then
    match headers_lookup hs "Content-Length" with
    | None => (Raise TypeError, [])
    | Some v =>
        match py_int v with
        | None => (Raise ValueError, [])
        | Some n =>
            match read_fault n b with
            | Some e => (Raise e, [])
            | None => (Ok tt, json_reply sql_doc)
            end
        end
    end
  else (Ok tt, not_found).
Proof.
  unfold reply, serve. rewrite handle_one_request_run.
  cbn [new_handler command req_command String.eqb Ascii.eqb Bool.eqb].
  rewrite do_POST_run.
  cbn [new_handler path req_path requestline req_line headers req_headers
       rfile req_body].
  destruct (String.eqb p "/druid/v2/sql"); [| reflexivity].
  destruct (headers_lookup hs "Content-Length") as [v|]; [| reflexivity].
  destruct (py_int v) as [n|]; [| reflexivity].
  destruct (read_fault n b); reflexivity.
Qed.

(** Reading bytes that are there raises nothing. *)
Lemma read_fault_present (d r : bytes) :
  read_fault (Z.of_nat (List.length d)) (d ++ r)%list = None.
Proof.
  unfold read_fault, ssize_max. rewrite length_app.
  replace (Z.of_nat (List.length d) <? - (2 ^ 63 - 1) - 1) with false
    by z_test.
  replace (Z.of_nat (List.length d + List.length r)
           <? Z.of_nat (List.length d)) with false by z_test.
  rewrite andb_false_r.
  replace (Z.of_nat (List.length d) <? -1) with false by z_test.
  reflexivity.
Qed.

(** A length below [-1] is refused: as too small for an index below
    [-2^63], as negative otherwise. *)
Lemma read_fault_negative (n : Z) (stream : bytes) :
  n < -1 ->
  read_fault n stream =
  Some (if n <? - 2 ^ 63 then OverflowError else ValueError).
Proof.
  intros Hn. unfold read_fault, ssize_max.
  change (- (2 ^ 63 - 1) - 1) with (- 2 ^ 63).
  destruct (n <? - 2 ^ 63); [reflexivity |].
  replace (2 ^ 63 - 1 <? n) with false by z_test.
  cbn [andb]. apply Z.ltb_lt in Hn. now rewrite Hn.
Qed.

Lemma coordinator_not_exact (p : string) :
  startswith p coordinator_prefix = true ->
  String.eqb p "/status" = false /\
  String.eqb p "/druid/v2/datasources" = false.
Proof.
  intros H. split; apply String.eqb_neq; intros ->; discriminate H.
Qed.

Lemma coordinator_tokens (p : string) :
  startswith p coordinator_prefix = true ->
  exists r,
    p = coordinator_prefix ++ r /\
    split "/" p =
    ([EmptyString; "druid"; "coordinator"; "v1"; "datasources"]
       ++ split "/" r)%list.
Proof.
  intros H. destruct (startswith_inv _ _ H) as (r & ->).
  exists r. split; [reflexivity |].
  change (coordinator_prefix ++ r)
    with ("/druid/coordinator/v1/datasources" ++ String "/" r).
  rewrite split_append_sep. reflexivity.
Qed.

(** Under the coordinator prefix the reply is the segments document when
    the final token is [segments], the metadata document otherwise, in
    both cases for the datasource name of the specification. *)
Lemma reply_GET_coordinator (py_int : string -> option Z)
    (py_repr : string -> string) (line p : string)
    (hs : list (string * string)) (b : bytes) (out : list string) :
  startswith p coordinator_prefix = true ->
  reply py_int py_repr (mkRequest line "GET" p hs b) out =
  (Ok tt,
   json_reply (if String.eqb (final_token p) "segments"
               then segments_doc (datasource_name p)
               else metadata_doc (datasource_name p))).
Proof.
  intros H. rewrite reply_GET.
  destruct (coordinator_not_exact p H) as [-> ->]. rewrite H.
  destruct (coordinator_tokens p H) as (r & _ & Htoks).
  rewrite py_index_minus_1 by apply split_not_nil.
  unfold final_token, datasource_name. cbv zeta.
  destruct (String.eqb (last (split "/" p) EmptyString) "segments");
    [| reflexivity].
  rewrite py_index_minus_2; [reflexivity |].
  rewrite Htoks, length_app. cbn [List.length]. lia.
Qed.

Lemma tokens_one (pre tok : string) :
  contains "/" tok = false ->
  split "/" (pre ++ String "/" tok) = (split "/" pre ++ [tok])%list.
Proof.
  intros H. now rewrite split_append_sep, (split_plain _ _ H).
Qed.

Lemma tokens_two (pre tok last : string) :
  contains "/" tok = false -> contains "/" last = false ->
  split "/" (pre ++ String "/" (tok ++ String "/" last)) =
  (split "/" pre ++ [tok; last])%list.
Proof.
  intros H H'.
  now rewrite !split_append_sep, (split_plain _ _ H), (split_plain _ _ H').
Qed.

(** The datasource name, without reference to [split]: the piece between
    the last two slashes of a path that ends in [/segments], the piece
    after the last slash of any other path. *)
Lemma datasource_name_segments (pre tok : string) :
  contains "/" tok = false ->
  final_token (pre ++ String "/" (tok ++ "/segments")) = "segments" /\
  datasource_name (pre ++ String "/" (tok ++ "/segments")) = tok.
Proof.
  intros H. unfold final_token, datasource_name. cbv zeta.
  change (tok ++ "/segments") with (tok ++ String "/" "segments").
  rewrite (tokens_two pre tok "segments" H eq_refl).
  change [tok; "segments"] with ([tok] ++ ["segments"])%list.
  rewrite app_assoc, last_last, removelast_last, last_last.
  split; reflexivity.
Qed.

Lemma datasource_name_plain (pre tok : string) :
  contains "/" tok = false -> tok <> "segments" ->
  final_token (pre ++ String "/" tok) = tok /\
  datasource_name (pre ++ String "/" tok) = tok.
Proof.
  intros H Hne. unfold final_token, datasource_name. cbv zeta.
  rewrite (tokens_one pre tok H), last_last.
  apply String.eqb_neq in Hne. rewrite Hne. split; reflexivity.
Qed.

Lemma serve_stdout (py_int : string -> option Z) (py_repr : string -> string)
    (req : request) (out : list string) :
  serve py_int py_repr req out =
  (reply py_int py_repr req [],
   (out ++ snd (serve py_int py_repr req []))%list).
Proof.
  unfold reply, serve. rewrite !handle_one_request_run.
  cbn [new_handler command].
  destruct (String.eqb (req_command req) "GET").
  - rewrite !do_GET_run. cbn [new_handler path requestline].
    destruct (String.eqb (req_path req) "/status"); [reflexivity |].
    destruct (String.eqb (req_path req) "/druid/v2/datasources");
      [reflexivity |].
    destruct (startswith (req_path req) coordinator_prefix);
      [| reflexivity].
    destruct (py_index (split "/" (req_path req)) (-1)) as [t|e];
      [| cbn; now rewrite app_nil_r].
    destruct (String.eqb t "segments"); [| reflexivity].
    destruct (py_index (split "/" (req_path req)) (-2)) as [ds|e];
      [reflexivity | cbn; now rewrite app_nil_r].
  - destruct (String.eqb (req_command req) "POST"); [| reflexivity].
    rewrite !do_POST_run. cbn [new_handler path requestline headers].
    destruct (String.eqb (req_path req) "/druid/v2/sql"); [| reflexivity].
    destruct (headers_lookup (req_headers req) "Content-Length") as [v|];
      [| cbn; now rewrite app_nil_r].
    destruct (py_int v) as [n|]; [| cbn; now rewrite app_nil_r].
    change (rfile (new_handler req out)) with (req_body req).
    change (rfile (new_handler req [])) with (req_body req).
    destruct (read_fault n (req_body req));
      [cbn; now rewrite app_nil_r | reflexivity].
Qed.

(** ** Replies, case by case *)

Lemma answers_unique (r : response) (d1 d2 : json) :
  answers r d1 -> answers r d2 -> d1 = d2.
Proof.
  intros (_ & _ & _ & _ & H1) (_ & _ & _ & _ & H2).
  rewrite H1 in H2. now injection H2.
Qed.

Lemma serve_unsupported (py_int : string -> option Z)
    (py_repr : string -> string) (line cmd p : string)
    (hs : list (string * string)) (b : bytes) (out : list string) :
  cmd <> "GET" -> cmd <> "POST" ->
  serve py_int py_repr (mkRequest line cmd p hs b) out =
  ((Ok tt, [ErrorPage 501 (unsupported_message py_repr cmd)]),
   (out ++ [error_log 501 (unsupported_message py_repr cmd);
            access_log line 501])%list).
Proof.
  intros Hg Hp. unfold serve. rewrite handle_one_request_run.
  cbn [new_handler command req_command].
  apply String.eqb_neq in Hg, Hp. rewrite Hg, Hp. reflexivity.
Qed.

Lemma read_fault_kind (n : Z) (stream : bytes) (e : exn) :
  read_fault n stream = Some e -> e = OverflowError \/ e = ValueError.
Proof.
  unfold read_fault.
  destruct (n <? - ssize_max - 1); [intros [= <-]; auto |].
  destruct ((ssize_max <? n) && (Z.of_nat (List.length stream) <? n));
    [intros [= <-]; auto |].
  destruct (n <? -1); [intros [= <-]; auto | discriminate].
Qed.

(** Every reply is one of four: a 200 carrying a document, the bare 404,
    the 501 of the base class, or an exception with nothing sent. *)
Lemma reply_cases (py_int : string -> option Z) (py_repr : string -> string)
    (req : request) (out : list string) :
  (exists doc, reply py_int py_repr req out = (Ok tt, json_reply doc))
  \/ reply py_int py_repr req out = (Ok tt, not_found)
  \/ (reply py_int py_repr req out =
        (Ok tt, [ErrorPage 501 (unsupported_message py_repr (req_command req))])
      /\ req_command req <> "GET" /\ req_command req <> "POST")
  \/ (exists e,
        reply py_int py_repr req out = (Raise e, [])
        /\ (e = TypeError \/ e = ValueError \/ e = OverflowError)
        /\ req_command req = "POST" /\ req_path req = "/druid/v2/sql").
Proof.
  destruct req as [line cmd p hs b]. cbn [req_command req_path].
  destruct (String.eqb_spec cmd "GET") as [-> | Hg].
  - destruct (startswith p coordinator_prefix) eqn:E3.
    + left. rewrite (reply_GET_coordinator _ _ _ _ _ _ _ E3). eauto.
    + rewrite reply_GET, E3.
      destruct (String.eqb p "/status"); [left; eauto |].
      destruct (String.eqb p "/druid/v2/datasources"); [left; eauto |].
      right. left. reflexivity.
  - destruct (String.eqb_spec cmd "POST") as [-> | Hp].
    + rewrite reply_POST.
      destruct (String.eqb_spec p "/druid/v2/sql") as [-> | Hsql];
        [| right; left; reflexivity].
      destruct (headers_lookup hs "Content-Length") as [v|];
        [| right; right; right; exists TypeError; auto].
      destruct (py_int v) as [n|];
        [| right; right; right; exists ValueError; auto].
      destruct (read_fault n b) as [e|] eqn:Ef; [| left; eauto].
      right; right; right. exists e.
      destruct (read_fault_kind _ _ _ Ef) as [-> | ->]; auto.
    + right. right. left. unfold reply.
      rewrite (serve_unsupported _ _ _ _ _ _ _ _ Hg Hp). auto.
Qed.

(** ** On the connection *)

Lemma latin1_app (a b : string) :
  list_byte_of_string (a ++ b) =
  (list_byte_of_string a ++ list_byte_of_string b)%list.
Proof.
  induction a as [|c a IH]; [reflexivity |].
  change (list_byte_of_string (String c a ++ b))
    with (byte_of_ascii c :: list_byte_of_string (a ++ b)).
  now rewrite IH.
Qed.

Lemma date_header (date : string) :
  header_line "Date" date =
  (list_byte_of_string "Date: " ++ list_byte_of_string date
   ++ list_byte_of_string crlf)%list.
Proof.
  unfold header_line.
  change ("Date" ++ ": " ++ date ++ crlf) with ("Date: " ++ (date ++ crlf)).
  now rewrite !latin1_app.
Qed.

(** The bytes of a reply are the date it was stamped with, between a head
    and a tail that the clock has no part in. *)
Lemma reply_on_connection (py_int : string -> option Z)
    (py_repr : string -> string) (version_string : string)
    (responses : Z -> string) (error_content : Z -> string -> bytes)
    (request_version : string) (req : request) (out : list string) :
  exists head tail : bytes, forall date,
    on_connection version_string responses error_content request_version
                  date req (reply py_int py_repr req out)
    = (head ++ date_stamp request_version date (reply py_int py_repr req out)
       ++ tail)%list.
Proof.
  destruct (reply_cases py_int py_repr req out)
    as [(doc & ->) | [-> | [(-> & _ & _) | (e & -> & _)]]];
    unfold on_connection, date_stamp, json_reply, not_found;
    cbn [snd status sent];
    destruct (String.eqb request_version "HTTP/0.9"); cbn [negb app].
  - exists [], (encode (json_dumps doc)). intros date.
    now rewrite app_nil_r.
  - exists (status_line 200 (responses 200)
            ++ header_line "Server" version_string
            ++ list_byte_of_string "Date: ")%list,
           (list_byte_of_string crlf
            ++ header_line "Content-type" "application/json"
            ++ list_byte_of_string crlf ++ encode (json_dumps doc))%list.
    intros date. unfold response_head. rewrite date_header, app_nil_r.
    now rewrite <- !app_assoc.
  - exists [], []. reflexivity.
  - exists (status_line 404 (responses 404)
            ++ header_line "Server" version_string
            ++ list_byte_of_string "Date: ")%list,
           (list_byte_of_string crlf ++ list_byte_of_string crlf)%list.
    intros date. unfold response_head. rewrite date_header.
    now rewrite <- !app_assoc.
  - exists [],
      (if error_has_body 501 && negb (String.eqb (req_command req) "HEAD")
       then error_content 501
              (unsupported_message py_repr (req_command req))
       else [])%list.
    intros date. now rewrite app_nil_r.
  - exists (status_line 501 (unsupported_message py_repr (req_command req))
            ++ header_line "Server" version_string
            ++ list_byte_of_string "Date: ")%list,
           (list_byte_of_string crlf
            ++ error_headers error_content 501
                 (unsupported_message py_repr (req_command req))
            ++ list_byte_of_string crlf
            ++ (if error_has_body 501
                   && negb (String.eqb (req_command req) "HEAD")
                then error_content 501
                       (unsupported_message py_repr (req_command req))
                else []))%list.
    intros date. unfold response_head. rewrite date_header, app_nil_r.
    now rewrite <- !app_assoc.
  - exists [], []. reflexivity.
  - exists [], []. reflexivity.
Qed.

(** Under HTTP/0.9 the reply is the body alone, whatever the clock
    shows. *)
Example status_http_0_9 (version_string : string) (responses : Z -> string)
    (error_content : Z -> string -> bytes) (date : string) :
  on_connection version_string responses error_content "HTTP/0.9" date
    (mkRequest "GET /status" "GET" "/status" [] [])
    (reply int_decimal repr_plain
           (mkRequest "GET /status" "GET" "/status" [] []) [])
  = list_byte_of_string
      (lit "{'status': 'healthy', 'version': '28.0.1-mock'}").
Proof. reflexivity. Qed.

(** The reply to a HEAD, for which the handler has no method, is the
    status line and the headers of the error page without the page. *)
Example head_without_page (version_string : string)
    (responses : Z -> string) (error_content : Z -> string -> bytes)
    (date : string) :
  on_connection version_string responses error_content "HTTP/1.1" date
    (mkRequest "HEAD /x HTTP/1.1" "HEAD" "/x" [] [])
    (reply int_decimal repr_plain
           (mkRequest "HEAD /x HTTP/1.1" "HEAD" "/x" [] []) [])
  = (response_head version_string 501 "Unsupported method ('HEAD')" date
     ++ header_line "Connection" "close"
     ++ header_line "Content-Type" "text/html;charset=utf-8"
     ++ header_line "Content-Length"
          (str_int
             (Z.of_nat
                (List.length
                   (error_content 501 "Unsupported method ('HEAD')"))))
     ++ list_byte_of_string crlf)%list.
Proof.
  unfold on_connection.
  change (snd (reply int_decimal repr_plain
                 (mkRequest "HEAD /x HTTP/1.1" "HEAD" "/x" [] []) []))
    with [ErrorPage 501 "Unsupported method ('HEAD')"].
  cbn [sent req_command String.eqb Ascii.eqb Bool.eqb negb andb app].
  unfold error_headers. change (error_has_body 501) with true.
  cbn [andb]. now rewrite !app_nil_r, <- !app_assoc.
Qed.

(** * The claims *)

(** C1: for a name without a slash, GET of the coordinator prefix followed
    by the name and [/segments] is answered with status 200 and the
    one-element array holding the segment descriptor of that name; under
    the coordinator prefix this is the reply exactly when the final token
    of the path is [segments]. *)
Theorem segments_request (py_int : string -> option Z)
    (py_repr : string -> string) (line name : string)
    (hs : list (string * string)) (b : bytes) (out : list string) :
  contains "/" name = false ->
  answers (reply py_int py_repr
             (mkRequest line "GET" (coordinator_prefix ++ name ++ "/segments")
                        hs b) out)
          (segments_doc name)
  /\ forall p,
       startswith p coordinator_prefix = true ->
       ((exists ds,
           json_loads
             (body (snd (reply py_int py_repr
                           (mkRequest line "GET" p hs b) out)))
           = Some (segments_doc ds))
        <-> final_token p = "segments").
Proof.
  intros Hname. split.
  - rewrite reply_GET_coordinator by apply startswith_append.
    change (coordinator_prefix ++ name ++ "/segments")
      with ("/druid/coordinator/v1/datasources"
              ++ String "/" (name ++ "/segments")).
    destruct (datasource_name_segments "/druid/coordinator/v1/datasources"
                name Hname) as [-> ->].
    apply answers_json_reply.
  - intros p Hp. rewrite reply_GET_coordinator by exact Hp.
    destruct (String.eqb_spec (final_token p) "segments") as [E|E].
    + split; [intros _; exact E | intros _].
      exists (datasource_name p).
      apply (answers_json_reply (segments_doc (datasource_name p))).
    + split; [| intros E'; contradiction].
      intros (ds & Hds).
      pose proof (answers_json_reply (metadata_doc (datasource_name p)))
        as (_ & _ & _ & _ & Hm).
      rewrite Hm in Hds. discriminate Hds.
Qed.

Lemma segments_request_witness :
  contains "/" "wikipedia" = false /\
  answers (reply int_decimal repr_plain
             (get (coordinator_prefix ++ "wikipedia" ++ "/segments")) [])
          (segments_doc "wikipedia").
Proof.
  split; [reflexivity |].
  exact (proj1 (segments_request int_decimal repr_plain _ "wikipedia" [] [] []
                  eq_refl)).
Defined.

(** C2: for a name without a slash and other than [segments], GET of the
    coordinator prefix followed by the name is answered with status 200
    and the metadata document of that name: the one interval, the three
    columns timestamp, count, dimension in this order, query granularity
    none, segment granularity day, rollup false. *)
Theorem metadata_request (py_int : string -> option Z)
    (py_repr : string -> string) (line name : string)
    (hs : list (string * string)) (b : bytes) (out : list string) :
  name <> "segments" ->
  contains "/" name = false ->
  answers (reply py_int py_repr
             (mkRequest line "GET" (coordinator_prefix ++ name) hs b) out)
          (metadata_doc name).
Proof.
  intros Hne Hname.
  rewrite reply_GET_coordinator by apply startswith_append.
  change (coordinator_prefix ++ name)
    with ("/druid/coordinator/v1/datasources" ++ String "/" name).
  destruct (datasource_name_plain "/druid/coordinator/v1/datasources"
              name Hname Hne) as [-> ->].
  apply String.eqb_neq in Hne. rewrite Hne.
  apply answers_json_reply.
Qed.

Lemma metadata_request_witness :
  "koalas" <> "segments" /\ contains "/" "koalas" = false /\
  answers (reply int_decimal repr_plain
             (get (coordinator_prefix ++ "koalas")) [])
          (metadata_doc "koalas").
Proof.
  assert (H : "koalas" <> "segments") by discriminate.
  split; [exact H |]. split; [reflexivity |].
  exact (metadata_request int_decimal repr_plain _ "koalas" [] [] []
           H eq_refl).
Defined.

(** C3: a POST to [/druid/v2/sql] whose Content-Length header declares
    the length of the body reads exactly that body from the connection
    and is answered with status 200 and the JSON array of the two rows
    [test] and [1]; the reply is the same whatever the body holds. *)
Theorem sql_request (py_int : string -> option Z)
    (py_repr : string -> string) (line v : string)
    (hs : list (string * string)) (data rest : bytes) (out : list string) :
  headers_lookup hs "Content-Length" = Some v ->
  py_int v = Some (Z.of_nat (List.length data)) ->
  let req := mkRequest line "POST" "/druid/v2/sql" hs (data ++ rest)%list in
  rfile (snd (handle_one_request py_int py_repr (new_handler req out))) = rest
  /\ answers (reply py_int py_repr req out) sql_doc
  /\ snd (reply py_int py_repr req out) =
     [SendResponse 200; SendHeader "Content-type" "application/json";
      EndHeaders; Write (list_byte_of_string (lit "[['test'], [1]]"))]
  /\ forall data' rest' : bytes,
       py_int v = Some (Z.of_nat (List.length data')) ->
       reply py_int py_repr
             (mkRequest line "POST" "/druid/v2/sql" hs
                        (data' ++ rest')%list) out
       = reply py_int py_repr req out.
Proof.
  intros Hv Hn req.
  assert (Hreply : forall d r : bytes,
            py_int v = Some (Z.of_nat (List.length d)) ->
            reply py_int py_repr
                  (mkRequest line "POST" "/druid/v2/sql" hs (d ++ r)%list) out
            = (Ok tt, json_reply sql_doc)).
  { intros d r Hn0. rewrite reply_POST.
    literal_tests. now rewrite Hv, Hn0, read_fault_present. }
  split; [| split; [| split]].
  - rewrite handle_one_request_run. subst req.
    cbn [new_handler command req_command String.eqb Ascii.eqb Bool.eqb].
    rewrite do_POST_run.
    cbn [new_handler path req_path headers req_headers rfile req_body
         String.eqb Ascii.eqb Bool.eqb].
    rewrite Hv, Hn, read_fault_present.
    replace (Z.of_nat (List.length data) =? -1) with false
      by z_test.
    cbn [snd after set_rfile rfile].
    rewrite Nat2Z.id, skipn_app, skipn_all, Nat.sub_diag. reflexivity.
  - subst req. rewrite (Hreply _ _ Hn). apply answers_json_reply.
  - subst req. rewrite (Hreply _ _ Hn). reflexivity.
  - intros data' rest' Hn'. subst req.
    now rewrite (Hreply _ _ Hn), (Hreply _ _ Hn').
Qed.

Lemma sql_request_witness :
  headers_lookup [("Host", "druid"); ("content-length", "2")] "Content-Length"
    = Some "2" /\
  int_decimal "2" = Some (Z.of_nat (List.length (list_byte_of_string "{}"))) /\
  answers (reply int_decimal repr_plain
             (mkRequest "POST /druid/v2/sql HTTP/1.1" "POST" "/druid/v2/sql"
                        [("Host", "druid"); ("content-length", "2")]
                        (list_byte_of_string "{}" ++ [])%list) [])
          sql_doc.
Proof.
  split; [reflexivity |]. split; [reflexivity |].
  exact (proj1 (proj2
           (sql_request int_decimal repr_plain "POST /druid/v2/sql HTTP/1.1"
              "2" [("Host", "druid"); ("content-length", "2")]
              (list_byte_of_string "{}") [] [] eq_refl eq_refl))).
Defined.

(** C4: a GET whose path is neither [/status] nor [/druid/v2/datasources]
    and does not start with the coordinator prefix, and a POST whose path
    is not [/druid/v2/sql], are answered with status 404, no body and no
    Content-Type header. *)
Theorem unrouted_request (py_int : string -> option Z)
    (py_repr : string -> string) (line cmd p : string)
    (hs : list (string * string)) (b : bytes) (out : list string) :
  cmd = "GET" \/ cmd = "POST" ->
  routed cmd p = false ->
  reply py_int py_repr (mkRequest line cmd p hs b) out = (Ok tt, not_found)
  /\ answers_404 (reply py_int py_repr (mkRequest line cmd p hs b) out).
Proof.
  intros Hcmd Hroute.
  assert (H : reply py_int py_repr (mkRequest line cmd p hs b) out
              = (Ok tt, not_found)).
  { unfold routed in Hroute. destruct Hcmd as [-> | ->].
    - cbn [String.eqb Ascii.eqb Bool.eqb andb orb] in Hroute.
      rewrite orb_false_r in Hroute.
      apply orb_false_iff in Hroute as [Hroute H3].
      apply orb_false_iff in Hroute as [H1 H2].
      rewrite reply_GET, H1, H2, H3. reflexivity.
    - cbn [String.eqb Ascii.eqb Bool.eqb andb orb] in Hroute.
      rewrite reply_POST, Hroute. reflexivity. }
  rewrite H. split; [reflexivity | apply answers_not_found].
Qed.

Lemma unrouted_request_witness :
  ("GET" = "GET" \/ "GET" = "POST") /\ routed "GET" "/foo" = false /\
  answers_404 (reply int_decimal repr_plain (get "/foo") []).
Proof.
  split; [left; reflexivity |]. split; [reflexivity |].
  exact (proj2 (unrouted_request int_decimal repr_plain _ "GET" "/foo" [] [] []
                  (or_introl eq_refl) eq_refl)).
Defined.

(** C5: GET [/status] is answered with status 200, the JSON content type
    and a body that parses to the object with status healthy and version
    28.0.1-mock. *)
Theorem status_request (py_int : string -> option Z)
    (py_repr : string -> string) (line : string)
    (hs : list (string * string)) (b : bytes) (out : list string) :
  answers (reply py_int py_repr (mkRequest line "GET" "/status" hs b) out)
          status_doc
  /\ body (snd (reply py_int py_repr (mkRequest line "GET" "/status" hs b)
                  out))
     = list_byte_of_string
         (lit "{'status': 'healthy', 'version': '28.0.1-mock'}").
Proof.
  rewrite reply_GET. literal_tests.
  split; [apply answers_json_reply | reflexivity].
Qed.

(** C6: GET [/druid/v2/datasources] is answered with status 200 and a body
    that parses to the array wikipedia, koalas, flights, in this order. *)
Theorem datasources_request (py_int : string -> option Z)
    (py_repr : string -> string) (line : string)
    (hs : list (string * string)) (b : bytes) (out : list string) :
  answers (reply py_int py_repr
             (mkRequest line "GET" "/druid/v2/datasources" hs b) out)
          datasources_doc
  /\ body (snd (reply py_int py_repr
                  (mkRequest line "GET" "/druid/v2/datasources" hs b) out))
     = list_byte_of_string (lit "['wikipedia', 'koalas', 'flights']").
Proof.
  rewrite reply_GET. literal_tests.
  split; [apply answers_json_reply | reflexivity].
Qed.

(** C7: under the coordinator prefix the name put into the reply is the
    token before a final [segments] token when the path ends with one,
    the final token otherwise; whatever the token is (percent sequences
    included) the document a client parses from the body carries it
    unchanged. *)
Theorem datasource_echoed (py_int : string -> option Z)
    (py_repr : string -> string) (line p : string)
    (hs : list (string * string)) (b : bytes) (out : list string) :
  startswith p coordinator_prefix = true ->
  answers (reply py_int py_repr (mkRequest line "GET" p hs b) out)
          (if String.eqb (final_token p) "segments"
           then segments_doc (datasource_name p)
           else metadata_doc (datasource_name p))
  /\ (forall pre tok,
        contains "/" tok = false ->
        p = pre ++ String "/" (tok ++ "/segments") ->
        answers (reply py_int py_repr (mkRequest line "GET" p hs b) out)
                (segments_doc tok))
  /\ (forall pre tok,
        contains "/" tok = false -> tok <> "segments" ->
        p = pre ++ String "/" tok ->
        answers (reply py_int py_repr (mkRequest line "GET" p hs b) out)
                (metadata_doc tok)).
Proof.
  intros Hp. rewrite (reply_GET_coordinator _ _ _ _ _ _ _ Hp).
  split; [apply answers_json_reply | split].
  - intros pre tok Htok ->.
    destruct (datasource_name_segments pre tok Htok) as [-> ->].
    apply answers_json_reply.
  - intros pre tok Htok Hne ->.
    destruct (datasource_name_plain pre tok Htok Hne) as [-> ->].
    apply String.eqb_neq in Hne. rewrite Hne.
    apply answers_json_reply.
Qed.

Lemma datasource_echoed_witness :
  startswith (coordinator_prefix ++ "my%20table%2F1") coordinator_prefix
    = true /\
  answers (reply int_decimal repr_plain
             (get (coordinator_prefix ++ "my%20table%2F1")) [])
          (metadata_doc "my%20table%2F1").
Proof.
  split; [reflexivity |].
  exact (proj1 (datasource_echoed int_decimal repr_plain _
                  (coordinator_prefix ++ "my%20table%2F1") [] [] []
                  eq_refl)).
Defined.

(** Against C8 as the specification words it, with replies that are the
    same byte for byte: [GET /status] served twice in succession gets the
    same calls from the handler, but the reply stamped at one second and
    the reply stamped at the next differ on the connection, in the Date
    header that [send_response] adds. *)
Lemma replies_differ_in_date :
  let req := mkRequest "GET /status HTTP/1.1" "GET" "/status" [] [] in
  let log := access_log "GET /status HTTP/1.1" 200 in
  let r := (Ok tt, json_reply status_doc) in
  let text := lit "{'status': 'healthy', 'version': '28.0.1-mock'}" in
  serve int_decimal repr_plain req [] = (r, [log])
  /\ serve int_decimal repr_plain req [log] = (r, [log; log])
  /\ forall version_string responses error_content,
       on_connection version_string responses error_content "HTTP/1.1"
                     "Tue, 03 Nov 2026 10:00:00 GMT" req r
       = list_byte_of_string
           ("HTTP/1.0 200 " ++ responses 200 ++ crlf
            ++ "Server: " ++ version_string ++ crlf
            ++ "Date: Tue, 03 Nov 2026 10:00:00 GMT" ++ crlf
            ++ "Content-type: application/json" ++ crlf ++ crlf ++ text)
       /\ on_connection version_string responses error_content "HTTP/1.1"
                        "Tue, 03 Nov 2026 10:00:01 GMT" req r
          = list_byte_of_string
              ("HTTP/1.0 200 " ++ responses 200 ++ crlf
               ++ "Server: " ++ version_string ++ crlf
               ++ "Date: Tue, 03 Nov 2026 10:00:01 GMT" ++ crlf
               ++ "Content-type: application/json" ++ crlf ++ crlf ++ text)
       /\ on_connection version_string responses error_content "HTTP/1.1"
                        "Tue, 03 Nov 2026 10:00:00 GMT" req r
          <> on_connection version_string responses error_content "HTTP/1.1"
                           "Tue, 03 Nov 2026 10:00:01 GMT" req r.
Proof.
  cbv zeta. split; [reflexivity |]. split; [reflexivity |].
  intros version_string responses error_content.
  assert (Hbytes : forall date,
            on_connection version_string responses error_content "HTTP/1.1"
              date (mkRequest "GET /status HTTP/1.1" "GET" "/status" [] [])
              (Ok tt, json_reply status_doc)
            = list_byte_of_string
                ("HTTP/1.0 200 " ++ responses 200 ++ crlf
                 ++ "Server: " ++ version_string ++ crlf
                 ++ "Date: " ++ date ++ crlf
                 ++ "Content-type: application/json" ++ crlf ++ crlf
                 ++ lit "{'status': 'healthy', 'version': '28.0.1-mock'}")).
  { intros date. unfold on_connection, json_reply.
    cbn [snd sent String.eqb Ascii.eqb Bool.eqb negb app].
    unfold response_head, status_line, header_line.
    rewrite !latin1_app, <- !app_assoc, app_nil_r. reflexivity. }
  split; [apply (Hbytes "Tue, 03 Nov 2026 10:00:00 GMT") |].
  split; [apply (Hbytes "Tue, 03 Nov 2026 10:00:01 GMT") |].
  rewrite !Hbytes, !latin1_app. intros H.
  repeat (apply app_inv_head in H). discriminate H.
Qed.

(** C8: served twice in succession, a request gets the same calls from the
    handler both times, whatever was served and printed before, and the
    two replies are the same byte for byte when they are stamped with the
    same date; stamped with two dates they differ in the value of the Date
    header alone, which stands between a head and a tail that are the same
    both times.  The reply is a function of the request and of that date,
    and in a run of requests each reply is the one the request gets on its
    own. *)
Theorem replies_identical_up_to_date (py_int : string -> option Z)
    (py_repr : string -> string) (version_string : string)
    (responses : Z -> string) (error_content : Z -> string -> bytes)
    (request_version : string) (req : request) (out : list string) :
  (let (r1, out1) := serve py_int py_repr req out in
   let (r2, out2) := serve py_int py_repr req out1 in
   r1 = r2
   /\ (forall date,
         on_connection version_string responses error_content
                       request_version date req r1
         = on_connection version_string responses error_content
                         request_version date req r2)
   /\ exists head tail : bytes, forall date1 date2,
        on_connection version_string responses error_content
                      request_version date1 req r1
        = (head ++ date_stamp request_version date1 r1 ++ tail)%list
        /\ on_connection version_string responses error_content
                         request_version date2 req r2
           = (head ++ date_stamp request_version date2 r2 ++ tail)%list)
  /\ (forall out', reply py_int py_repr req out' = reply py_int py_repr req out)
  /\ (forall reqs,
        fst (serve_all py_int py_repr reqs out) =
        map (fun q => reply py_int py_repr q []) reqs)
  /\ (forall reqs,
        fst (run_server py_int py_repr reqs) =
        map (fun q => reply py_int py_repr q []) reqs).
Proof.
  assert (Hall : forall reqs out0,
            fst (serve_all py_int py_repr reqs out0) =
            map (fun q => reply py_int py_repr q []) reqs).
  { induction reqs as [|q reqs IH]; intros out0; [reflexivity |].
    cbn [serve_all map]. rewrite (serve_stdout py_int py_repr q out0).
    specialize (IH (out0 ++ snd (serve py_int py_repr q []))%list).
    destruct (serve_all py_int py_repr reqs
                (out0 ++ snd (serve py_int py_repr q []))%list) as [rs out2].
    cbn [fst] in *. now rewrite IH. }
  split; [| split; [| split]].
  - rewrite (serve_stdout py_int py_repr req out).
    rewrite (serve_stdout py_int py_repr req (out ++ _)).
    split; [reflexivity |]. split; [reflexivity |].
    destruct (reply_on_connection py_int py_repr version_string responses
                error_content request_version req [])
      as (head & tail & H).
    exists head, tail. intros date1 date2. split; apply H.
  - intros out'. unfold reply at 1 2.
    rewrite (serve_stdout py_int py_repr req out').
    rewrite (serve_stdout py_int py_repr req out). reflexivity.
  - intros reqs. apply Hall.
  - intros reqs. apply Hall.
Qed.

(** C9: GET of the coordinator path without the slash at its end is
    answered 404 with no body, as the path does not start with the
    coordinator prefix; with [foo/] after the prefix the reply is the
    metadata document whose name is the empty text. *)
Theorem coordinator_slash (py_int : string -> option Z)
    (py_repr : string -> string) (line : string)
    (hs : list (string * string)) (b : bytes) (out : list string) :
  startswith "/druid/coordinator/v1/datasources" coordinator_prefix = false
  /\ reply py_int py_repr
       (mkRequest line "GET" "/druid/coordinator/v1/datasources" hs b) out
     = (Ok tt, not_found)
  /\ answers_404
       (reply py_int py_repr
          (mkRequest line "GET" "/druid/coordinator/v1/datasources" hs b) out)
  /\ answers
       (reply py_int py_repr
          (mkRequest line "GET" "/druid/coordinator/v1/datasources/foo/" hs b)
          out)
       (metadata_doc EmptyString).
Proof.
  rewrite !reply_GET.
  split; [reflexivity |]. split; [reflexivity |].
  split; [apply answers_not_found |].
  apply (answers_json_reply (metadata_doc EmptyString)).
Qed.

(** C10: a POST to [/druid/v2/sql] without a Content-Length header raises
    (the conversion of the missing value to an integer fails) before
    anything is sent or logged; a reply with status 200 to such a POST
    means the header is there and its value converts to an integer. *)
Theorem sql_request_without_length (py_int : string -> option Z)
    (py_repr : string -> string) (line : string)
    (hs : list (string * string)) (b : bytes) (out : list string) :
  headers_lookup hs "Content-Length" = None ->
  serve py_int py_repr (mkRequest line "POST" "/druid/v2/sql" hs b) out
  = ((Raise TypeError, []), out)
  /\ status (snd (reply py_int py_repr
                    (mkRequest line "POST" "/druid/v2/sql" hs b) out)) = None
  /\ body (snd (reply py_int py_repr
                  (mkRequest line "POST" "/druid/v2/sql" hs b) out)) = []
  /\ forall hs' b' out',
       status (snd (reply py_int py_repr
                      (mkRequest line "POST" "/druid/v2/sql" hs' b') out'))
       = Some 200 ->
       exists v n,
         headers_lookup hs' "Content-Length" = Some v /\ py_int v = Some n.
Proof.
  intros Hnone.
  assert (Hserve :
    serve py_int py_repr (mkRequest line "POST" "/druid/v2/sql" hs b) out
    = ((Raise TypeError, []), out)).
  { unfold serve. rewrite handle_one_request_run.
    cbn [new_handler command req_command String.eqb Ascii.eqb Bool.eqb].
    rewrite do_POST_run.
    cbn [new_handler path req_path headers req_headers
         String.eqb Ascii.eqb Bool.eqb].
    rewrite Hnone. reflexivity. }
  unfold reply at 1 2. rewrite Hserve.
  split; [reflexivity |]. split; [reflexivity |]. split; [reflexivity |].
  intros hs' b' out'. rewrite reply_POST.
  literal_tests.
  destruct (headers_lookup hs' "Content-Length") as [v|];
    [| discriminate].
  destruct (py_int v) as [n|] eqn:En; [| discriminate].
  intros _. exists v, n. split; [reflexivity | exact En].
Qed.

Lemma sql_request_without_length_witness :
  headers_lookup [("Host", "druid"); ("Content-Type", "application/json")]
                 "Content-Length" = None /\
  serve int_decimal repr_plain
        (mkRequest "POST /druid/v2/sql HTTP/1.1" "POST" "/druid/v2/sql"
                   [("Host", "druid"); ("Content-Type", "application/json")]
                   (list_byte_of_string "{}")) []
  = ((Raise TypeError, []), []).
Proof.
  split; [reflexivity |].
  exact (proj1
           (sql_request_without_length int_decimal repr_plain
              "POST /druid/v2/sql HTTP/1.1"
              [("Host", "druid"); ("Content-Type", "application/json")]
              (list_byte_of_string "{}") [] eq_refl)).
Defined.

(** * Further properties of the handler *)

(** ** More on splitting *)

Lemma split_tokens_plain (sep : ascii) (s : string) :
  Forall (fun t => contains sep t = false) (split sep s).
Proof.
  induction s as [|c s IH]; cbn [split].
  - repeat constructor.
  - destruct (Ascii.eqb c sep) eqn:Ec.
    + constructor; [reflexivity | exact IH].
    + destruct (split sep s) as [|t ts].
      * constructor; [| constructor]. cbn [contains]. now rewrite Ec.
      * inversion IH as [|? ? Ht Hts]; subst.
        constructor; [| exact Hts]. cbn [contains]. now rewrite Ec, Ht.
Qed.

(** The text is its last token when there is one token, and otherwise ends
    with a separator followed by its last token. *)
Lemma split_snoc (sep : ascii) (s : string) :
  forall (toks : list string) (t : string),
    split sep s = (toks ++ [t])%list ->
    (toks = [] -> s = t) /\
    (toks <> [] ->
     exists pre, s = pre ++ String sep t /\ split sep pre = toks).
Proof.
  induction s as [|c s IH]; intros toks t H; cbn [split] in H.
  - destruct toks as [|x toks].
    + injection H as <-. split; [reflexivity | congruence].
    + destruct toks; discriminate H.
  - destruct (Ascii.eqb c sep) eqn:Ec.
    + apply Ascii.eqb_eq in Ec. subst c.
      destruct toks as [|x toks].
      * injection H as _ H. now destruct (split_not_nil sep s).
      * injection H as <- H. split; [discriminate | intros _].
        destruct (IH toks t H) as [H0 H1].
        destruct toks as [|y toks].
        -- exists EmptyString. rewrite (H0 eq_refl). split; reflexivity.
        -- destruct H1 as (pre & -> & Hpre); [discriminate |].
           exists (String sep pre). split; [reflexivity |].
           cbn [split]. now rewrite Ascii.eqb_refl, Hpre.
    + destruct (split sep s) as [|u us] eqn:Es;
        [now destruct (split_not_nil sep s) |].
      destruct toks as [|x toks].
      * injection H as <- ->.
        destruct (IH [] u eq_refl) as [H0 _].
        rewrite (H0 eq_refl). split; [reflexivity | congruence].
      * injection H as <- ->. split; [discriminate | intros _].
        destruct (IH (u :: toks) t eq_refl) as [_ H1].
        destruct H1 as (pre & -> & Hpre); [discriminate |].
        exists (String c pre). split; [reflexivity |].
        cbn [split]. now rewrite Ec, Hpre.
Qed.

Lemma split_length_coordinator (p : string) :
  startswith p coordinator_prefix = true ->
  (6 <= List.length (split "/" p))%nat.
Proof.
  intros H. destruct (coordinator_tokens p H) as (r & _ & ->).
  rewrite length_app. cbn [List.length].
  destruct (split "/" r) eqn:E; [now destruct (split_not_nil "/" r) |].
  cbn [List.length]. lia.
Qed.

(** ** Outcomes *)

(** X1: a GET never raises (the two negative indices always find their
    token) and its status is 200 on the three routes, 404 everywhere
    else. *)
Theorem get_status_by_route (py_int : string -> option Z)
    (py_repr : string -> string) (line p : string)
    (hs : list (string * string)) (b : bytes) (out : list string) :
  exists tr,
    reply py_int py_repr (mkRequest line "GET" p hs b) out = (Ok tt, tr)
    /\ status tr = Some (if routed "GET" p then 200 else 404).
Proof.
  unfold routed. literal_tests. cbn [andb orb]. rewrite orb_false_r.
  destruct (startswith p coordinator_prefix) eqn:E3.
  - rewrite (reply_GET_coordinator _ _ _ _ _ _ _ E3).
    eexists. split; [reflexivity |]. now rewrite orb_true_r.
  - rewrite reply_GET, E3.
    destruct (String.eqb p "/status");
      [eexists; split; reflexivity |].
    destruct (String.eqb p "/druid/v2/datasources");
      eexists; split; reflexivity.
Qed.

(** X2: a POST to [/druid/v2/sql] whose Content-Length value is not an
    integer, or is an integer below -1, raises before [send_response]:
    [ValueError] from [int] or from the read of a negative length,
    [OverflowError] where the length is below [-2^63] and fits no index.
    Nothing is sent and nothing is logged. *)
Theorem sql_request_bad_length (py_int : string -> option Z)
    (py_repr : string -> string) (line v : string)
    (hs : list (string * string)) (b : bytes) (out : list string) :
  headers_lookup hs "Content-Length" = Some v ->
  py_int v = None \/ (exists n, py_int v = Some n /\ n < -1) ->
  serve py_int py_repr (mkRequest line "POST" "/druid/v2/sql" hs b) out
  = ((Raise (match py_int v with
             | Some n => if n <? - 2 ^ 63 then OverflowError else ValueError
             | None => ValueError
             end), []), out).
Proof.
  intros Hv Hbad. unfold serve. rewrite handle_one_request_run.
  cbn [new_handler command req_command]. literal_tests.
  rewrite do_POST_run.
  cbn [new_handler path req_path headers req_headers rfile req_body].
  literal_tests. rewrite Hv.
  destruct Hbad as [-> | (n & -> & Hn)]; [reflexivity |].
  now rewrite (read_fault_negative n b Hn).
Qed.

Lemma sql_request_bad_length_witness :
  headers_lookup [("Content-Length", "-5")] "Content-Length" = Some "-5" /\
  (int_decimal "-5" = None \/
   exists n, int_decimal "-5" = Some n /\ n < -1) /\
  serve int_decimal repr_plain
        (mkRequest "POST /druid/v2/sql HTTP/1.1" "POST" "/druid/v2/sql"
                   [("Content-Length", "-5")] (list_byte_of_string "{}")) []
  = ((Raise ValueError, []), []).
Proof.
  assert (H : exists n, int_decimal "-5" = Some n /\ n < -1)
    by (exists (-5); split; [reflexivity | lia]).
  split; [reflexivity |].
  split; [right; exact H |].
  exact (sql_request_bad_length int_decimal repr_plain
           "POST /druid/v2/sql HTTP/1.1" "-5" [("Content-Length", "-5")]
           (list_byte_of_string "{}") [] eq_refl (or_intror H)).
Defined.



(** ** The log *)

(** What a request prints when nothing was printed before it. *)
Lemma printed_alone (py_int : string -> option Z) (py_repr : string -> string)
    (line cmd p : string) (hs : list (string * string)) (b : bytes) :
  cmd = "GET" \/ cmd = "POST" ->
  snd (serve py_int py_repr (mkRequest line cmd p hs b) []) =
  match status (snd (reply py_int py_repr (mkRequest line cmd p hs b) []))
  with
  | Some code => [access_log line code]
  | None => []
  end.
Proof.
  intros [-> | ->]; unfold reply, serve; rewrite handle_one_request_run;
    cbn [new_handler command req_command]; literal_tests.
  - rewrite do_GET_run.
    cbn [new_handler path requestline req_path req_line].
    destruct (String.eqb p "/status"); [reflexivity |].
    destruct (String.eqb p "/druid/v2/datasources"); [reflexivity |].
    destruct (startswith p coordinator_prefix); [| reflexivity].
    destruct (py_index (split "/" p) (-1)) as [t|e]; [| reflexivity].
    destruct (String.eqb t "segments"); [| reflexivity].
    destruct (py_index (split "/" p) (-2)) as [ds|e]; reflexivity.
  - rewrite do_POST_run.
    cbn [new_handler path requestline headers rfile req_path req_line
         req_headers req_body].
    destruct (String.eqb p "/druid/v2/sql"); [| reflexivity].
    destruct (headers_lookup hs "Content-Length") as [v|]; [| reflexivity].
    destruct (py_int v) as [n|]; [| reflexivity].
    destruct (read_fault n b); reflexivity.
Qed.

(** X5: a GET or POST that is answered prints one line, made of the
    prefix, the request line between double quotes, the status that was
    sent and a dash; one that raises prints nothing. *)
Theorem access_log_matches_reply (py_int : string -> option Z)
    (py_repr : string -> string) (line cmd p : string)
    (hs : list (string * string)) (b : bytes) (out : list string) :
  cmd = "GET" \/ cmd = "POST" ->
  snd (serve py_int py_repr (mkRequest line cmd p hs b) out) =
  (out ++
   match status (snd (reply py_int py_repr (mkRequest line cmd p hs b) out))
   with
   | Some code =>
       [("Mock Druid: " ++
         String dquote
           (line ++ String dquote (" " ++ str_int code ++ " -")))%string]
   | None => []
   end)%list.
Proof.
  intros Hcmd. unfold reply at 1. rewrite serve_stdout. cbn [fst snd].
  now rewrite (printed_alone _ _ _ _ _ _ _ Hcmd).
Qed.

Lemma access_log_matches_reply_witness :
  ("GET" = "GET" \/ "GET" = "POST") /\
  snd (serve int_decimal repr_plain (get "/status") ["earlier"]) =
  ["earlier"; lit "Mock Druid: 'GET /status HTTP/1.1' 200 -"].
Proof.
  split; [left; reflexivity |].
  exact (access_log_matches_reply int_decimal repr_plain _ "GET" "/status"
           [] [] ["earlier"] (or_introl eq_refl)).
Defined.

(** X6: whatever the request, what was printed before stays as it is and
    every line added starts with the prefix [Mock Druid: ]. *)
Theorem printed_lines_prefixed (py_int : string -> option Z)
    (py_repr : string -> string) (req : request) (out : list string) :
  exists lines,
    snd (serve py_int py_repr req out) = (out ++ lines)%list
    /\ Forall (fun l => startswith l "Mock Druid: " = true) lines.
Proof.
  exists (snd (serve py_int py_repr req [])).
  split; [now rewrite serve_stdout |].
  destruct req as [line cmd p hs b].
  destruct (String.eqb_spec cmd "GET") as [-> | Hg];
    [| destruct (String.eqb_spec cmd "POST") as [-> | Hp]].
  - rewrite printed_alone by (left; reflexivity).
    destruct (status _); repeat constructor.
  - rewrite printed_alone by (right; reflexivity).
    destruct (status _); repeat constructor.
  - rewrite (serve_unsupported _ _ _ _ _ _ _ _ Hg Hp). cbn [snd app].
    repeat constructor.
Qed.

(** X7: the server prints its banner first and then, request after
    request, the lines each request prints on its own. *)
Theorem run_server_output (py_int : string -> option Z)
    (py_repr : string -> string) (reqs : list request) :
  snd (run_server py_int py_repr reqs) =
  "Mock Druid server running on port 8082..."
    :: List.concat (map (fun q => snd (serve py_int py_repr q [])) reqs).
Proof.
  unfold run_server.
  assert (H : forall out,
            snd (serve_all py_int py_repr reqs out) =
            (out ++ List.concat (map (fun q => snd (serve py_int py_repr q []))
                                reqs))%list).
  { induction reqs as [|q reqs IH]; intros out.
    - cbn. now rewrite app_nil_r.
    - cbn [serve_all map List.concat].
      rewrite (serve_stdout py_int py_repr q out).
      specialize (IH (out ++ snd (serve py_int py_repr q []))%list).
      destruct (serve_all py_int py_repr reqs
                  (out ++ snd (serve py_int py_repr q []))%list)
        as [rs out2].
      cbn [snd] in *. now rewrite IH, app_assoc. }
  rewrite H. reflexivity.
Qed.

(** ** Routes *)

(** X8: the three exact routes match the whole path: with anything after
    them (a slash, a query string) the reply is 404, and for the POST no
    header is looked at. *)
Theorem routes_are_exact (py_int : string -> option Z)
    (py_repr : string -> string) (line s : string)
    (hs : list (string * string)) (b : bytes) (out : list string) :
  s <> EmptyString ->
  reply py_int py_repr (mkRequest line "GET" ("/status" ++ s) hs b) out
  = (Ok tt, not_found)
  /\ reply py_int py_repr
       (mkRequest line "GET" ("/druid/v2/datasources" ++ s) hs b) out
     = (Ok tt, not_found)
  /\ reply py_int py_repr
       (mkRequest line "POST" ("/druid/v2/sql" ++ s) hs b) out
     = (Ok tt, not_found).
Proof.
  intros Hs. destruct s as [|c s]; [contradiction |].
  rewrite !reply_GET, reply_POST. repeat split.
Qed.

Lemma routes_are_exact_witness :
  "?limit=1" <> EmptyString /\
  reply int_decimal repr_plain (get ("/status" ++ "?limit=1")) []
  = (Ok tt, not_found).
Proof.
  assert (H : "?limit=1" <> EmptyString) by discriminate.
  split; [exact H |].
  exact (proj1 (routes_are_exact int_decimal repr_plain _ "?limit=1" [] [] []
                  H)).
Defined.

(** ** Bodies *)

(** X10: the body of every 200 reply, whatever the path holds (double
    quotes, backslashes, control characters, code points above 127), is
    made of ASCII bytes only and parses as one JSON document. *)
Theorem ok_body_is_json (py_int : string -> option Z)
    (py_repr : string -> string) (req : request) (out : list string) :
  status (snd (reply py_int py_repr req out)) = Some 200 ->
  forallb is_ascii_byte (body (snd (reply py_int py_repr req out))) = true
  /\ exists doc,
       json_loads (body (snd (reply py_int py_repr req out))) = Some doc.
Proof.
  destruct (reply_cases py_int py_repr req out)
    as [(doc & ->) | [-> | [(-> & _) | (e0 & -> & _)]]];
    cbn [snd]; try discriminate.
  intros _.
  destruct (answers_json_reply doc) as (_ & _ & _ & Hb & Hl).
  cbn [snd] in Hb, Hl. split; [| eauto].
  rewrite Hb.
  now destruct (encode_ascii_only _ (ascii_only_dumps doc)) as [-> ->].
Qed.

Lemma ok_body_is_json_witness :
  status (snd (reply int_decimal repr_plain
                 (get (coordinator_prefix
                         ++ String dquote (String backslash
                              (String "233" (String "127" "x")))))
                 [])) = Some 200 /\
  exists doc,
    json_loads
      (body (snd (reply int_decimal repr_plain
                    (get (coordinator_prefix
                            ++ String dquote (String backslash
                                 (String "233" (String "127" "x")))))
                    []))) = Some doc.
Proof.
  split; [reflexivity |].
  exact (proj2 (ok_body_is_json int_decimal repr_plain
                  (get (coordinator_prefix
                          ++ String dquote (String backslash
                               (String "233" (String "127" "x")))))
                  [] eq_refl)).
Defined.

(** ** From a reply back to the path *)

Lemma coordinator_only (py_int : string -> option Z)
    (py_repr : string -> string) (line p : string)
    (hs : list (string * string)) (b : bytes) (out : list string)
    (doc : json) :
  answers (reply py_int py_repr (mkRequest line "GET" p hs b) out) doc ->
  doc <> status_doc -> doc <> datasources_doc ->
  startswith p coordinator_prefix = true.
Proof.
  intros Ha H1 H2.
  destruct (startswith p coordinator_prefix) eqn:E3; [reflexivity |].
  rewrite reply_GET, E3 in Ha.
  destruct (String.eqb p "/status").
  - now destruct H1; apply (answers_unique _ _ _ Ha),
      (answers_json_reply status_doc).
  - destruct (String.eqb p "/druid/v2/datasources").
    + now destruct H2; apply (answers_unique _ _ _ Ha),
        (answers_json_reply datasources_doc).
    + destruct Ha as (_ & Hst & _). discriminate Hst.
Qed.

(** X11: a GET is answered with the metadata document of [name] only if
    the path starts with the coordinator prefix and ends with a slash
    followed by [name]; [name] then holds no slash and is not
    [segments]. *)
Theorem metadata_reply_inv (py_int : string -> option Z)
    (py_repr : string -> string) (line p name : string)
    (hs : list (string * string)) (b : bytes) (out : list string) :
  answers (reply py_int py_repr (mkRequest line "GET" p hs b) out)
          (metadata_doc name) ->
  startswith p coordinator_prefix = true
  /\ contains "/" name = false
  /\ name <> "segments"
  /\ exists pre, p = pre ++ String "/" name.
Proof.
  intros Ha.
  assert (Hp : startswith p coordinator_prefix = true)
    by (apply (coordinator_only _ _ _ _ _ _ _ _ Ha); discriminate).
  split; [exact Hp |].
  rewrite (reply_GET_coordinator _ _ _ _ _ _ _ Hp) in Ha.
  destruct (String.eqb_spec (final_token p) "segments") as [E | E].
  - pose proof (answers_unique _ _ _ Ha (answers_json_reply _)) as H.
    discriminate H.
  - pose proof (answers_unique _ _ _ Ha (answers_json_reply _)) as H.
    injection H as H.
    unfold datasource_name in H. cbv zeta in H.
    unfold final_token in E. apply String.eqb_neq in E. rewrite E in H.
    apply String.eqb_neq in E.
    pose proof (split_length_coordinator p Hp) as Hlen.
    destruct (exists_last (split_not_nil "/" p)) as (toks & t & Hsplit).
    rewrite Hsplit, last_last in H, E. subst t.
    pose proof (split_tokens_plain "/" p) as Hplain.
    rewrite Hsplit in Hplain. apply Forall_app in Hplain as [_ Hplain].
    inversion Hplain as [|? ? Hname _]; subst.
    split; [exact Hname |]. split; [exact E |].
    destruct (split_snoc "/" p toks name Hsplit) as [_ H1].
    destruct H1 as (pre & -> & _); [| eauto].
    intros ->. rewrite Hsplit in Hlen. cbn in Hlen. lia.
Qed.

Lemma metadata_reply_inv_witness :
  answers (reply int_decimal repr_plain
             (get (coordinator_prefix ++ "a/b/koalas")) [])
          (metadata_doc "koalas") /\
  exists pre, coordinator_prefix ++ "a/b/koalas" = pre ++ String "/" "koalas".
Proof.
  assert (H : answers (reply int_decimal repr_plain
                         (get (coordinator_prefix ++ "a/b/koalas")) [])
                      (metadata_doc "koalas"))
    by exact (answers_json_reply (metadata_doc "koalas")).
  split; [exact H |].
  exact (proj2 (proj2 (proj2
           (metadata_reply_inv int_decimal repr_plain _
              (coordinator_prefix ++ "a/b/koalas") "koalas" [] [] [] H)))).
Defined.

(** X12: a GET is answered with the segments document of [name] only if
    the path starts with the coordinator prefix and ends with a slash,
    [name] and [/segments]; [name] then holds no slash. *)
Theorem segments_reply_inv (py_int : string -> option Z)
    (py_repr : string -> string) (line p name : string)
    (hs : list (string * string)) (b : bytes) (out : list string) :
  answers (reply py_int py_repr (mkRequest line "GET" p hs b) out)
          (segments_doc name) ->
  startswith p coordinator_prefix = true
  /\ contains "/" name = false
  /\ exists pre, p = pre ++ String "/" (name ++ "/segments").
Proof.
  intros Ha.
  assert (Hp : startswith p coordinator_prefix = true)
    by (apply (coordinator_only _ _ _ _ _ _ _ _ Ha); discriminate).
  split; [exact Hp |].
  rewrite (reply_GET_coordinator _ _ _ _ _ _ _ Hp) in Ha.
  destruct (String.eqb_spec (final_token p) "segments") as [E | E].
  - pose proof (answers_unique _ _ _ Ha (answers_json_reply _)) as H.
    injection H as H.
    unfold datasource_name in H. cbv zeta in H.
    unfold final_token in E. rewrite E, String.eqb_refl in H.
    pose proof (split_length_coordinator p Hp) as Hlen.
    destruct (exists_last (split_not_nil "/" p)) as (toks & t & Hsplit).
    rewrite Hsplit, last_last in E. subst t.
    rewrite Hsplit, removelast_last in H.
    assert (Htoks : toks <> [])
      by (intros ->; rewrite Hsplit in Hlen; cbn in Hlen; lia).
    destruct (split_snoc "/" p toks "segments" Hsplit) as [_ H1].
    destruct (H1 Htoks) as (pre1 & -> & Hpre1).
    destruct (exists_last Htoks) as (toks' & t & ->).
    rewrite last_last in H. subst name.
    pose proof (split_tokens_plain "/" pre1) as Hplain.
    rewrite Hpre1 in Hplain. apply Forall_app in Hplain as [_ Hplain].
    inversion Hplain as [|? ? Hname _]; subst.
    split; [exact Hname |].
    destruct (split_snoc "/" pre1 toks' t Hpre1) as [_ H2].
    destruct H2 as (pre & -> & _).
    + intros ->. rewrite Hsplit in Hlen. cbn in Hlen. lia.
    + exists pre. now rewrite append_assoc.
  - pose proof (answers_unique _ _ _ Ha (answers_json_reply _)) as H.
    discriminate H.
Qed.

Lemma segments_reply_inv_witness :
  answers (reply int_decimal repr_plain
             (get (coordinator_prefix ++ "x/flights/segments")) [])
          (segments_doc "flights") /\
  contains "/" "flights" = false.
Proof.
  assert (H : answers (reply int_decimal repr_plain
                         (get (coordinator_prefix ++ "x/flights/segments"))
                         [])
                      (segments_doc "flights"))
    by exact (answers_json_reply (segments_doc "flights")).
  split; [exact H |].
  exact (proj1 (proj2
           (segments_reply_inv int_decimal repr_plain _
              (coordinator_prefix ++ "x/flights/segments") "flights"
              [] [] [] H))).
Defined.

(** X13: different names give different bodies, byte for byte: the
    serialisation never maps two names to the same text, so a client can
    tell from the body alone which name the path held. *)
Theorem distinct_names_distinct_bodies (py_int : string -> option Z)
    (py_repr : string -> string) (line n1 n2 : string)
    (hs : list (string * string)) (b : bytes) (out : list string) :
  contains "/" n1 = false -> contains "/" n2 = false -> n1 <> n2 ->
  body (snd (reply py_int py_repr
               (mkRequest line "GET" (coordinator_prefix ++ n1 ++ "/segments")
                          hs b) out))
  <> body (snd (reply py_int py_repr
                  (mkRequest line "GET"
                             (coordinator_prefix ++ n2 ++ "/segments") hs b)
                  out))
  /\ (n1 <> "segments" -> n2 <> "segments" ->
      body (snd (reply py_int py_repr
                   (mkRequest line "GET" (coordinator_prefix ++ n1) hs b)
                   out))
      <> body (snd (reply py_int py_repr
                      (mkRequest line "GET" (coordinator_prefix ++ n2) hs b)
                      out))).
Proof.
  intros H1 H2 Hne.
  assert (Hdocs : forall d1 d2 : json,
            body (json_reply d1) = body (json_reply d2) -> d1 = d2).
  { intros d1 d2 Hb.
    pose proof (answers_json_reply d1) as (_ & _ & _ & _ & L1).
    pose proof (answers_json_reply d2) as (_ & _ & _ & _ & L2).
    cbn [snd] in L1, L2. rewrite Hb, L2 in L1. now injection L1. }
  split.
  - rewrite !reply_GET_coordinator by apply startswith_append.
    change (coordinator_prefix ++ n1 ++ "/segments")
      with ("/druid/coordinator/v1/datasources"
              ++ String "/" (n1 ++ "/segments")).
    change (coordinator_prefix ++ n2 ++ "/segments")
      with ("/druid/coordinator/v1/datasources"
              ++ String "/" (n2 ++ "/segments")).
    destruct (datasource_name_segments "/druid/coordinator/v1/datasources"
                n1 H1) as [-> ->].
    destruct (datasource_name_segments "/druid/coordinator/v1/datasources"
                n2 H2) as [-> ->].
    cbn [snd]. intros Hb. apply Hdocs in Hb. injection Hb as Hb.
    contradiction.
  - intros Hs1 Hs2.
    rewrite !reply_GET_coordinator by apply startswith_append.
    change (coordinator_prefix ++ n1)
      with ("/druid/coordinator/v1/datasources" ++ String "/" n1).
    change (coordinator_prefix ++ n2)
      with ("/druid/coordinator/v1/datasources" ++ String "/" n2).
    destruct (datasource_name_plain "/druid/coordinator/v1/datasources"
                n1 H1 Hs1) as [-> ->].
    destruct (datasource_name_plain "/druid/coordinator/v1/datasources"
                n2 H2 Hs2) as [-> ->].
    apply String.eqb_neq in Hs1, Hs2. rewrite Hs1, Hs2.
    cbn [snd]. intros Hb. apply Hdocs in Hb. injection Hb as Hb.
    contradiction.
Qed.

Lemma distinct_names_distinct_bodies_witness :
  contains "/" "a b" = false /\ contains "/" "a%20b" = false /\
  "a b" <> "a%20b" /\
  body (snd (reply int_decimal repr_plain
               (get (coordinator_prefix ++ "a b" ++ "/segments")) []))
  <> body (snd (reply int_decimal repr_plain
                  (get (coordinator_prefix ++ "a%20b" ++ "/segments")) [])).
Proof.
  assert (H : "a b" <> "a%20b") by discriminate.
  split; [reflexivity |]. split; [reflexivity |]. split; [exact H |].
  exact (proj1 (distinct_names_distinct_bodies int_decimal repr_plain _
                  "a b" "a%20b" [] [] [] eq_refl eq_refl H)).
Defined.

(** ** What a GET looks at *)

(** X14: a GET is answered from its path alone: the request line, the
    headers and the bytes after them change nothing, and the handler
    leaves those bytes unread. *)
Theorem get_reads_path_only (py_int : string -> option Z)
    (py_repr : string -> string) (line line' p : string)
    (hs hs' : list (string * string)) (b b' : bytes)
    (out out' : list string) :
  reply py_int py_repr (mkRequest line "GET" p hs b) out
  = reply py_int py_repr (mkRequest line' "GET" p hs' b') out'
  /\ rfile (snd (handle_one_request py_int py_repr
                   (new_handler (mkRequest line "GET" p hs b) out))) = b.
Proof.
  split; [now rewrite !reply_GET |].
  rewrite handle_one_request_run.
  cbn [new_handler command req_command]. literal_tests.
  rewrite do_GET_run. cbn [new_handler path req_path].
  destruct (String.eqb p "/status"); [reflexivity |].
  destruct (String.eqb p "/druid/v2/datasources"); [reflexivity |].
  destruct (startswith p coordinator_prefix); [| reflexivity].
  destruct (py_index (split "/" p) (-1)) as [t|e]; [| reflexivity].
  destruct (String.eqb t "segments"); [| reflexivity].
  destruct (py_index (split "/" p) (-2)) as [ds|e]; reflexivity.
Qed.

(** ** Splitting and joining *)

Lemma join_cons_nonempty (sep p : string) (ps : list string) :
  ps <> [] -> join sep (p :: ps) = p ++ sep ++ join sep ps.
Proof. destruct ps; [congruence | reflexivity]. Qed.

(** X15: splitting a path on the slash loses nothing: no token holds a
    slash, there is always a token, and the tokens joined with slashes
    are the path again. *)
Theorem split_join (p : string) :
  join "/" (split "/" p) = p
  /\ Forall (fun t => contains "/" t = false) (split "/" p)
  /\ split "/" p <> [].
Proof.
  split; [| split; [apply split_tokens_plain | apply split_not_nil]].
  induction p as [|c p IH]; [reflexivity |].
  cbn [split]. destruct (Ascii.eqb c "/") eqn:Ec.
  - apply Ascii.eqb_eq in Ec. subst c.
    rewrite join_cons_nonempty by apply split_not_nil.
    cbn [append]. now rewrite IH.
  - destruct (split "/" p) as [|t ts] eqn:Es;
      [now destruct (split_not_nil "/" p) |].
    destruct ts as [|t2 ts].
    + cbn [join] in *. now rewrite IH.
    + rewrite join_cons2 in *. cbn [append] in *. now rewrite IH.
Qed.
